(** * groq-hexagonal-api: the chat relay, embedded and verified

    The backend is a hexagonal (ports and adapters) Go service:

      HTTP handler  -->  ChatService port  -->  GroqRepository port  -->  Groq API

    Each Go package becomes a module below ([domain], [application], [groq],
    [httpInfra]).  A port (a Go interface) becomes a family of operations; the
    code on the calling side of a port is a program over that family, and an
    adapter (the struct implementing the interface) gives every operation a
    program over the next port.  Running a program against stubbed answers
    yields the ordered list of operations it performed, which is what the
    call-count statements are about. *)

From Stdlib Require Import String Ascii List ZArith Bool Lia Floats DecimalString.
Import ListNotations.
Local Open Scope string_scope.

(* ====================================================================== *)
(** * Go conventions *)
(* ====================================================================== *)

Module Go.

(** Values implementing the [error] interface that this program creates or
    receives.  Two errors built the same way are equal here; Go compares
    the sentinel variables by pointer, which no code path below relies on. *)
Inductive error : Type :=
| errorString (s : string)               (* errors.New, fmt.Errorf without %w *)
| wrapError (msg : string) (err : error) (* fmt.Errorf with a %w verb *)
| ValidationError (Message : string)     (* *http.ValidationError *)
| libraryError (text : string).          (* produced by net/http, encoding/json, io *)

(** The [Error() string] method. *)
Definition Error (e : error) : string :=
  match e with
  | errorString s => s
  | wrapError msg _ => msg
  | ValidationError m => m
  | libraryError t => t
  end.

(** [errors.Unwrap]. *)
Definition Unwrap (e : error) : option error :=
  match e with
  | wrapError _ err => Some err
  | _ => None
  end.

Definition errors_New (text : string) : error := errorString text.

(** [fmt.Errorf(prefix + "%w", err)]: the message is the prefix followed by
    the cause's message, and the cause stays reachable through [Unwrap]. *)
Definition Errorf_w (prefix : string) (err : error) : error :=
  wrapError (prefix ++ Error err) err.

(** The verb [%d] applied to an int. *)
Definition fmt_d (n : Z) : string := NilZero.string_of_int (Z.to_int n).

(** A function with a pointer and an error as results returns either a
    value and a nil error, or a nil pointer and an error. *)
Inductive Result (A : Type) : Type :=
| Ok (a : A)
| Err (e : error).
Arguments Ok {A} a.
Arguments Err {A} e.

(** [s[i]] on a slice: [None] stands for the index-out-of-range panic. *)
Definition index {A : Type} (s : list A) (i : nat) : option A := nth_error s i.

(** [s[lo:hi]] on a string: [None] stands for the slice-bounds panic. *)
Definition slice (s : string) (lo hi : Z) : option string :=
  if ((0 <=? lo) && (lo <=? hi) && (hi <=? Z.of_nat (String.length s)))%Z
  then Some (substring (Z.to_nat lo) (Z.to_nat (hi - lo)) s)
  else None.

(** [strings.Contains]. *)
Fixpoint Contains (s substr : string) : bool :=
  prefix substr s ||
  match s with
  | EmptyString => false
  | String _ rest => Contains rest substr
  end.

End Go.
Import Go.

(* ====================================================================== *)
(** * Programs over a port *)
(* ====================================================================== *)

(** A program either returns, panics, or performs an operation [e] of the
    port [E] and continues with its answer. *)
Inductive Prog (E : Type -> Type) (R : Type) : Type :=
| Ret (r : R)
| Panic (reason : string)
| Vis (X : Type) (e : E X) (k : X -> Prog E R).
Arguments Ret {E R} r.
Arguments Panic {E R} reason.
Arguments Vis {E R X} e k.

Fixpoint bind {E : Type -> Type} {A B : Type}
         (p : Prog E A) (f : A -> Prog E B) : Prog E B :=
  match p with
  | Ret a => f a
  | Panic reason => Panic reason
  | Vis e k => Vis e (fun x => bind (k x) f)
  end.

Definition call {E : Type -> Type} {X : Type} (e : E X) : Prog E X := Vis e Ret.

(** A checked pure step: [None] is a run-time panic. *)
Definition must {E : Type -> Type} {A : Type} (o : option A) : Prog E A :=
  match o with
  | Some a => Ret a
  | None => Panic "runtime error: index out of range"
  end.

(** A deferred [recover]: when [p] panics, [handler] runs on the panic value
    and the panic ends there. *)
Fixpoint catch {E : Type -> Type} {A : Type}
         (p : Prog E A) (handler : string -> Prog E A) : Prog E A :=
  match p with
  | Ret a => Ret a
  | Panic reason => handler reason
  | Vis e k => Vis e (fun x => catch (k x) handler)
  end.

Declare Scope prog_scope.
Delimit Scope prog_scope with prog.
Notation "x <- p ;; q" := (bind p (fun x => q))
  (at level 61, p at next level, right associativity) : prog_scope.
Notation "p ;;; q" := (bind p (fun _ => q))
  (at level 61, right associativity) : prog_scope.
Local Open Scope prog_scope.

(** Two ports side by side. *)
Variant sumE (E F : Type -> Type) (X : Type) : Type :=
| inl1 (e : E X)
| inr1 (f : F X).
Arguments inl1 {E F X} e.
Arguments inr1 {E F X} f.
Notation "E +' F" := (sumE E F) (at level 60, right associativity).

(** An adapter: every operation of [E] as a program over [F]. *)
Definition Adapter (E F : Type -> Type) : Type := forall X : Type, E X -> Prog F X.

Fixpoint interp {E F : Type -> Type} {R : Type}
         (h : Adapter E F) (p : Prog E R) : Prog F R :=
  match p with
  | Ret r => Ret r
  | Panic reason => Panic reason
  | Vis e k => bind (h _ e) (fun x => interp h (k x))
  end.

(** An operation of the right port, performed next to a left port. *)
Definition liftR {L F : Type -> Type} : Adapter F (L +' F) :=
  fun Y f => call (inr1 f).

(** Keep the left port, adapt the right one. *)
Definition onRight {L E F : Type -> Type} (h : Adapter E F) : Adapter (L +' E) (L +' F) :=
  fun X e =>
    match e with
    | inl1 l => call (inl1 l)
    | inr1 r => interp liftR (h X r)
    end.

(** A stub answers every operation. *)
Definition Stub (E : Type -> Type) : Type := forall X : Type, E X -> X.

Definition stubs {E F : Type -> Type} (l : Stub E) (r : Stub F) : Stub (E +' F) :=
  fun X e => match e with inl1 a => l X a | inr1 b => r X b end.

(** An operation that was performed. *)
Definition event (E : Type -> Type) : Type := { X : Type & E X }.
Definition ev {E : Type -> Type} {X : Type} (e : E X) : event E := existT _ X e.

(** [exec stub p]: the operations [p] performs, in order, when [stub] answers
    them, and what [p] returns ([None] when it panics). *)
Fixpoint exec {E : Type -> Type} {R : Type}
         (stub : Stub E) (p : Prog E R) : list (event E) * option R :=
  match p with
  | Ret r => ([], Some r)
  | Panic _ => ([], None)
  | Vis e k => let (t, r) := exec stub (k (stub _ e)) in (ev e :: t, r)
  end.

Definition inRight {L F : Type -> Type} (e : event F) : event (L +' F) :=
  ev (inr1 (projT2 e)).

Definition trace {E : Type -> Type} {R : Type} (stub : Stub E) (p : Prog E R) :=
  fst (exec stub p).
Definition outcome {E : Type -> Type} {R : Type} (stub : Stub E) (p : Prog E R) :=
  snd (exec stub p).

(** The stub an adapter amounts to when its own port is answered by [stub]
    ([fallback] answers where the adapter panics). *)
Definition answered {E F : Type -> Type}
           (h : Adapter E F) (stub : Stub F) (fallback : Stub E) : Stub E :=
  fun X e =>
    match outcome stub (h X e) with
    | Some x => x
    | None => fallback X e
    end.

(* ====================================================================== *)
(** * package domain (internal/domain/chat.go, ports.go) *)
(* ====================================================================== *)

Module domain.

Record ChatMessage : Type := {
  Role : string;
  Content : string
}.

Record ChatRequest : Type := {
  Messages : list ChatMessage;
  Model : string;
  Temperature : option float;  (* *float64, nil when unset *)
  MaxTokens : Z
}.

Record Choice : Type := {
  Index : Z;
  Message : ChatMessage;
  FinishReason : string
}.

Record Usage : Type := {
  PromptTokens : Z;
  CompletionTokens : Z;
  TotalTokens : Z
}.

Record ChatResponse : Type := {
  ID : string;
  Object : string;
  Created : Z;
  ChatResponse_Model : string; (* field Model *)
  Choices : list Choice;
  ChatResponse_Usage : Usage   (* field Usage *)
}.

Record Model_ : Type := {      (* struct Model *)
  Model_ID : string;
  Model_Object : string;
  Model_Created : Z;           (* time.Time, as an instant *)
  Model_OwnedBy : string
}.

Record ModelsResponse : Type := {
  ModelsResponse_Object : string;
  Data : list Model_
}.

Definition NewChatMessage (role content : string) : ChatMessage :=
  {| Role := role; Content := content |}.

(** Fields left out of the composite literal take their zero value. *)
Definition NewChatRequest (model : string) (messages : list ChatMessage) : ChatRequest :=
  {| Messages := messages; Model := model; Temperature := None; MaxTokens := 0 |}.

Definition AddMessage (c : ChatRequest) (role content : string) : ChatRequest :=
  {| Messages := Messages c ++ [NewChatMessage role content];
     Model := Model c; Temperature := Temperature c; MaxTokens := MaxTokens c |}.

Definition SetTemperature (c : ChatRequest) (temp : float) : ChatRequest :=
  {| Messages := Messages c; Model := Model c;
     Temperature := Some temp; MaxTokens := MaxTokens c |}.

Definition SetMaxTokens (c : ChatRequest) (max : Z) : ChatRequest :=
  {| Messages := Messages c; Model := Model c;
     Temperature := Temperature c; MaxTokens := max |}.

(** [if len(c.Choices) > 0 { return c.Choices[0].Message.Content }; return ""] *)
Definition GetResponseContent (c : ChatResponse) : option string :=
  if (0 <? length (Choices c))%nat
  then match index (Choices c) 0 with
       | Some ch => Some (Content (Message ch))
       | None => None
       end
  else Some "".

(** [len(c.Choices) > 0 && c.Choices[0].FinishReason == "stop"]; the right
    operand is evaluated only when the left one holds. *)
Definition IsComplete (c : ChatResponse) : option bool :=
  if (0 <? length (Choices c))%nat
  then match index (Choices c) 0 with
       | Some ch => Some (FinishReason ch =? "stop")
       | None => None
       end
  else Some false.

(** Primary port: what the HTTP handlers call. *)
Variant ChatService : Type -> Type :=
| SendMessage (message model : string) : ChatService (Result ChatResponse)
| GetAvailableModels : ChatService (Result ModelsResponse).

(** Secondary port: how the application reaches the Groq API. *)
Variant GroqRepository : Type -> Type :=
| CreateChatCompletion (request : ChatRequest) : GroqRepository (Result ChatResponse)
| ListModels : GroqRepository (Result ModelsResponse).

End domain.

(* ====================================================================== *)
(** * package application (the chat service) *)
(* ====================================================================== *)

Module application.
Import domain.

Definition ErrEmptyMessage : error := errors_New "el mensaje no puede estar vacío".
Definition ErrEmptyModel : error := errors_New "el modelo no puede estar vacío".
Definition ErrAPIFailure : error := errors_New "fallo al comunicarse con la API de Groq".

(** The repository field [groqRepo] is the port the programs below run over. *)
Record ChatServiceImpl : Type := {
  defaultModel : string
}.

(** The repository argument is the port; its nil check guards a value that
    has no counterpart here. *)
Definition NewChatService (defaultModel : string) : ChatServiceImpl :=
  {| defaultModel := defaultModel |}.

Definition SendMessage (s : ChatServiceImpl) (message model : string)
  : Prog GroqRepository (Result ChatResponse) :=
  if (String.length message =? 0)%nat then Ret (Err ErrEmptyMessage) else
  let model := if model =? "" then defaultModel s else model in
  if model =? "" then Ret (Err ErrEmptyModel) else
  let userMessage := NewChatMessage "user" message in
  let request := NewChatRequest model [userMessage] in
  res <- call (CreateChatCompletion request) ;;
  match res with
  | Err err => Ret (Err (Errorf_w "error al obtener respuesta de Groq: " err))
  | Ok response =>
      if (length (Choices response) =? 0)%nat
      then Ret (Err (errors_New "la respuesta no contiene opciones"))
      else Ret (Ok response)
  end.

Definition GetAvailableModels (s : ChatServiceImpl)
  : Prog GroqRepository (Result ModelsResponse) :=
  res <- call ListModels ;;
  match res with
  | Err err => Ret (Err (Errorf_w "error al obtener modelos: " err))
  | Ok models => Ret (Ok models)
  end.

(** [*ChatServiceImpl] implements [domain.ChatService]. *)
Definition service (s : ChatServiceImpl) : Adapter ChatService GroqRepository :=
  fun X op =>
    match op in ChatService T return Prog GroqRepository T with
    | domain.SendMessage message model => SendMessage s message model
    | domain.GetAvailableModels => GetAvailableModels s
    end.

End application.

(* ====================================================================== *)
(** * net/http, as far as the program uses it *)
(* ====================================================================== *)

Module nethttp.

Definition MethodGet : string := "GET".
Definition MethodPost : string := "POST".
Definition StatusOK : Z := 200.
Definition StatusBadRequest : Z := 400.
Definition StatusMethodNotAllowed : Z := 405.
Definition StatusInternalServerError : Z := 500.

Definition Header : Type := list (string * string).

(** [h.Set(key, value)] replaces whatever [key] held. *)
Definition Header_Set (h : Header) (key value : string) : Header :=
  (key, value) :: filter (fun kv => negb (fst kv =? key)) h.

(** [h.Get(key)]: the value [key] holds, or the empty string. *)
Fixpoint Header_Get (h : Header) (key : string) : string :=
  match h with
  | [] => ""
  | (k, v) :: rest => if k =? key then v else Header_Get rest key
  end.

(** A request; for one received by the server [URL] is [r.URL.Path]. *)
Record Request : Type := {
  Method : string;
  URL : string;
  ReqHeader : Header;
  Body : option string
}.

(** A response of the upstream; [RespBody] is what [io.ReadAll(resp.Body)]
    returns. *)
Record Response : Type := {
  StatusCode : Z;
  RespBody : Result string
}.

(** The [Do] method of [http.Client]: the single outbound operation. *)
Variant Client : Type -> Type :=
| Do (req : Request) : Client (Result Response).

End nethttp.

(* ====================================================================== *)
(** * package groq (the Groq API client) *)
(* ====================================================================== *)

Module groq.
Import domain nethttp.

Definition ChatCompletionsEndpoint : string := "/chat/completions".
Definition ModelsEndpoint : string := "/models".
Definition ContentTypeJSON : string := "application/json".
Definition AuthorizationHeader : string := "Authorization".

(** The [httpClient] field is the [nethttp.Client] port. *)
Record GroqClient : Type := {
  baseURL : string;
  apiKey : string
}.

(** [timeout] configures the [http.Client] behind the port. *)
Definition NewGroqClient {E : Type -> Type} (apiKey baseURL : string) (timeout : Z)
  : Prog E GroqClient :=
  if apiKey =? "" then Panic "apiKey no puede estar vacía" else
  if baseURL =? "" then Panic "baseURL no puede estar vacía" else
  Ret {| baseURL := baseURL; apiKey := apiKey |}.

(** Library functions the client calls, taken as given. *)
Record Library : Type := {
  json_Marshal : ChatRequest -> Result string;
  json_Unmarshal_ChatResponse : string -> Result ChatResponse;
  json_Unmarshal_ModelsResponse : string -> Result ModelsResponse;
  http_NewRequestWithContext : string -> string -> option string -> Result Request
}.

Section Client.
Variable lib : Library.

Definition doRequest (c : GroqClient) (method url : string) (body : option string)
  : Prog Client (Result string) :=
  match http_NewRequestWithContext lib method url body with
  | Err err => Ret (Err (Errorf_w "error al crear request: " err))
  | Ok req =>
      let req := {| Method := Method req; URL := URL req;
                    ReqHeader := Header_Set (ReqHeader req) "Content-Type" ContentTypeJSON;
                    Body := Body req |} in
      let req := {| Method := Method req; URL := URL req;
                    ReqHeader := Header_Set (ReqHeader req) AuthorizationHeader
                                            ("Bearer " ++ apiKey c);
                    Body := Body req |} in
      r <- call (Do req) ;;
      match r with
      | Err err => Ret (Err (Errorf_w "error al ejecutar request: " err))
      | Ok resp =>
          match RespBody resp with
          | Err err => Ret (Err (Errorf_w "error al leer respuesta: " err))
          | Ok responseBody =>
              if (StatusCode resp <? 200)%Z || (StatusCode resp >=? 300)%Z
              then Ret (Err (errors_New ("API retornó status " ++ fmt_d (StatusCode resp)
                                         ++ ": " ++ responseBody)))
              else Ret (Ok responseBody)
          end
      end
  end.

Definition CreateChatCompletion (c : GroqClient) (request : ChatRequest)
  : Prog Client (Result ChatResponse) :=
  let url := baseURL c ++ ChatCompletionsEndpoint in
  match json_Marshal lib request with
  | Err err => Ret (Err (Errorf_w "error al serializar request: " err))
  | Ok jsonData =>
      r <- doRequest c MethodPost url (Some jsonData) ;;
      match r with
      | Err err => Ret (Err (Errorf_w "error en la petición HTTP: " err))
      | Ok response =>
          match json_Unmarshal_ChatResponse lib response with
          | Err err => Ret (Err (Errorf_w "error al parsear respuesta: " err))
          | Ok chatResponse => Ret (Ok chatResponse)
          end
      end
  end.

Definition ListModels (c : GroqClient) : Prog Client (Result ModelsResponse) :=
  let url := baseURL c ++ ModelsEndpoint in
  r <- doRequest c MethodGet url None ;;
  match r with
  | Err err => Ret (Err (Errorf_w "error al obtener modelos: " err))
  | Ok response =>
      match json_Unmarshal_ModelsResponse lib response with
      | Err err => Ret (Err (Errorf_w "error al parsear modelos: " err))
      | Ok modelsResponse => Ret (Ok modelsResponse)
      end
  end.

(** [*GroqClient] implements [domain.GroqRepository]. *)
Definition repository (c : GroqClient) : Adapter GroqRepository Client :=
  fun X op =>
    match op in GroqRepository T return Prog Client T with
    | domain.CreateChatCompletion request => CreateChatCompletion c request
    | domain.ListModels => ListModels c
    end.

End Client.
End groq.

(* ====================================================================== *)
(** * encoding/json: the values the handlers write *)
(* ====================================================================== *)

Module json.

(** A JSON document; an object keeps its members in the order written. *)
#[local] Unset Elimination Schemes.
Inductive Value : Type :=
| Null
| Bool (b : bool)
| Number (n : Z)
| Str (s : string)
| Array (items : list Value)
| Object (members : list (string * Value)).
#[local] Set Elimination Schemes.

(** What [Encode] produces for a value of type [A], following the struct's
    field tags. *)
Class Marshaler (A : Type) : Type := Marshal : A -> Value.

(** Members dropped by [omitempty]. *)
Definition omitempty_string (key s : string) : list (string * Value) :=
  if s =? "" then [] else [(key, Str s)].
Definition omitempty_int (key : string) (n : Z) : list (string * Value) :=
  if (n =? 0)%Z then [] else [(key, Number n)].
Definition omitempty_ptr {A : Type} `{Marshaler A} (key : string) (p : option A)
  : list (string * Value) :=
  match p with
  | None => []
  | Some a => [(key, Marshal a)]
  end.

Definition omitempty_slice {A : Type} `{Marshaler A} (key : string) (items : list A)
  : list (string * Value) :=
  match items with
  | [] => []
  | _ :: _ => [(key, Array (map Marshal items))]
  end.

End json.

(* ====================================================================== *)
(** * package http (DTOs and handlers) *)
(* ====================================================================== *)

Module httpInfra.
Import nethttp.

(** ** DTOs *)

Record ChatRequest : Type := {
  Message : string;
  Model : string;
  Temperature : option float;
  MaxTokens : Z
}.

Record UsageInfo : Type := {
  PromptTokens : Z;
  CompletionTokens : Z;
  TotalTokens : Z
}.

Record ChatResponse : Type := {
  Success : bool;
  ChatResponse_Message : string;   (* field Message *)
  ChatResponse_Model : string;     (* field Model *)
  Usage : option UsageInfo;
  ChatResponse_Error : string      (* field Error *)
}.

Record ErrorResponse : Type := {
  ErrorResponse_Success : bool;    (* field Success *)
  ErrorResponse_Error : string;    (* field Error *)
  Code : Z
}.

Record ModelInfo : Type := {
  ModelInfo_ID : string;           (* field ID *)
  Name : string;
  ModelInfo_OwnedBy : string       (* field OwnedBy *)
}.

Record ModelsResponse : Type := {
  ModelsResponse_Success : bool;   (* field Success *)
  Models : list ModelInfo;
  ModelsResponse_Error : string    (* field Error *)
}.

#[export] Instance ModelInfo_Marshaler : json.Marshaler ModelInfo :=
  fun m => json.Object
    [ ("id", json.Str (ModelInfo_ID m));
      ("name", json.Str (Name m));
      ("owned_by", json.Str (ModelInfo_OwnedBy m)) ].

#[export] Instance ModelsResponse_Marshaler : json.Marshaler ModelsResponse :=
  fun m => json.Object
    ([ ("success", json.Bool (ModelsResponse_Success m)) ]
     ++ json.omitempty_slice "models" (Models m)
     ++ json.omitempty_string "error" (ModelsResponse_Error m)).

#[export] Instance UsageInfo_Marshaler : json.Marshaler UsageInfo :=
  fun u => json.Object
    [ ("prompt_tokens", json.Number (PromptTokens u));
      ("completion_tokens", json.Number (CompletionTokens u));
      ("total_tokens", json.Number (TotalTokens u)) ].

#[export] Instance ChatResponse_Marshaler : json.Marshaler ChatResponse :=
  fun c => json.Object
    ([ ("success", json.Bool (Success c));
       ("message", json.Str (ChatResponse_Message c));
       ("model", json.Str (ChatResponse_Model c)) ]
     ++ json.omitempty_ptr "usage" (Usage c)
     ++ json.omitempty_string "error" (ChatResponse_Error c)).

#[export] Instance ErrorResponse_Marshaler : json.Marshaler ErrorResponse :=
  fun e => json.Object
    ([ ("success", json.Bool (ErrorResponse_Success e));
       ("error", json.Str (ErrorResponse_Error e)) ]
     ++ json.omitempty_int "code" (Code e)).

(** ** Validation *)

Definition NewValidationError (message : string) : error := ValidationError message.

Definition ErrEmptyMessage : error :=
  NewValidationError "el mensaje no puede estar vacío".
Definition ErrInvalidTemperature : error :=
  NewValidationError "la temperatura debe estar entre 0 y 2".
Definition ErrInvalidMaxTokens : error :=
  NewValidationError "max_tokens debe ser mayor o igual a 0".

(** [None] is the nil error. *)
Definition Validate (r : ChatRequest) : option error :=
  if Message r =? "" then Some ErrEmptyMessage else
  if match Temperature r with
     | Some temp => (temp <? 0)%float || (2 <? temp)%float
     | None => false
     end
  then Some ErrInvalidTemperature else
  if (MaxTokens r <? 0)%Z then Some ErrInvalidMaxTokens else
  None.

(** ** Factory functions *)

Definition NewChatResponse (message model : string) (usage : option UsageInfo)
  : ChatResponse :=
  {| Success := true; ChatResponse_Message := message; ChatResponse_Model := model;
     Usage := usage; ChatResponse_Error := "" |}.

Definition NewChatErrorResponse (errorMsg : string) : ChatResponse :=
  {| Success := false; ChatResponse_Message := ""; ChatResponse_Model := "";
     Usage := None; ChatResponse_Error := errorMsg |}.

Definition NewErrorResponse (message : string) (code : Z) : ErrorResponse :=
  {| ErrorResponse_Success := false; ErrorResponse_Error := message; Code := code |}.

Definition NewModelsResponse (models : list ModelInfo) : ModelsResponse :=
  {| ModelsResponse_Success := true; Models := models; ModelsResponse_Error := "" |}.

Definition NewModelsErrorResponse (errorMsg : string) : ModelsResponse :=
  {| ModelsResponse_Success := false; Models := []; ModelsResponse_Error := errorMsg |}.

(** ** The response writer *)

(** What a handler has written: the header map, the status line and the
    documents encoded into the body.  [WCode = 0] means no status yet. *)
Record ResponseWriter : Type := {
  WHeader : Header;
  WCode : Z;
  WBody : list json.Value
}.

Definition NewRecorder : ResponseWriter :=
  {| WHeader := []; WCode := 0; WBody := [] |}.

(** The first [WriteHeader] fixes the status. *)
Definition WriteHeader (w : ResponseWriter) (statusCode : Z) : ResponseWriter :=
  {| WHeader := WHeader w;
     WCode := if (WCode w =? 0)%Z then statusCode else WCode w;
     WBody := WBody w |}.

Definition Encode {A : Type} `{json.Marshaler A} (w : ResponseWriter) (data : A)
  : ResponseWriter :=
  {| WHeader := WHeader w; WCode := WCode w; WBody := WBody w ++ [json.Marshal data] |}.

(** The standard logger. *)
Variant Logger : Type -> Type :=
| Printf (line : string) : Logger unit.

(** ** Handlers *)

Definition writeJSONResponse {A : Type} `{json.Marshaler A}
           (w : ResponseWriter) (data : A) (statusCode : Z) : ResponseWriter :=
  let w := {| WHeader := Header_Set (WHeader w) "Content-Type" "application/json";
              WCode := WCode w; WBody := WBody w |} in
  let w := WriteHeader w statusCode in
  Encode w data.

Definition writeErrorResponse (w : ResponseWriter) (message : string) (statusCode : Z)
  : ResponseWriter :=
  let errorResponse := NewErrorResponse message statusCode in
  writeJSONResponse w errorResponse statusCode.

Section Handler.
(** [json.NewDecoder(r.Body).Decode(&req)] on the request body. *)
Variable json_Decode : option string -> Result ChatRequest.

(** The [chatService] field is the [domain.ChatService] port. *)
Definition HandleChat (w : ResponseWriter) (r : Request)
  : Prog (Logger +' domain.ChatService) ResponseWriter :=
  call (inl1 (Printf ("[" ++ Method r ++ "] " ++ URL r ++ " - HandleChat"))) ;;;
  if negb (Method r =? MethodPost)
  then Ret (writeErrorResponse w "método no permitido" StatusMethodNotAllowed)
  else
    match json_Decode (Body r) with
    | Err err => Ret (writeErrorResponse w ("JSON inválido: " ++ Error err) StatusBadRequest)
    | Ok req =>
        match Validate req with
        | Some err => Ret (writeErrorResponse w (Error err) StatusBadRequest)
        | None =>
            res <- call (inr1 (domain.SendMessage (Message req) (Model req))) ;;
            match res with
            | Err err =>
                call (inl1 (Printf ("Error en servicio: " ++ Error err))) ;;;
                Ret (writeErrorResponse w "error al procesar el mensaje"
                                        StatusInternalServerError)
            | Ok response =>
                content <- must (domain.GetResponseContent response) ;;
                let chatResponse :=
                  NewChatResponse content (domain.ChatResponse_Model response)
                    (Some {| PromptTokens := domain.PromptTokens (domain.ChatResponse_Usage response);
                             CompletionTokens := domain.CompletionTokens (domain.ChatResponse_Usage response);
                             TotalTokens := domain.TotalTokens (domain.ChatResponse_Usage response) |}) in
                Ret (writeJSONResponse w chatResponse StatusOK)
            end
        end
    end.

End Handler.

Definition HandleGetModels (w : ResponseWriter) (r : Request)
  : Prog (Logger +' domain.ChatService) ResponseWriter :=
  call (inl1 (Printf ("[" ++ Method r ++ "] " ++ URL r ++ " - HandleGetModels"))) ;;;
  if negb (Method r =? MethodGet)
  then Ret (writeErrorResponse w "método no permitido" StatusMethodNotAllowed)
  else
    res <- call (inr1 domain.GetAvailableModels) ;;
    match res with
    | Err err =>
        call (inl1 (Printf ("Error al obtener modelos: " ++ Error err))) ;;;
        Ret (writeErrorResponse w "error al obtener modelos" StatusInternalServerError)
    | Ok response =>
        let modelInfos :=
          map (fun model => {| ModelInfo_ID := domain.Model_ID model;
                               Name := domain.Model_ID model;
                               ModelInfo_OwnedBy := domain.Model_OwnedBy model |})
              (domain.Data response) in
        let modelsResponse := NewModelsResponse modelInfos in
        Ret (writeJSONResponse w modelsResponse StatusOK)
    end.

(** The recovery middleware of router.go.  A handler here hands back what it
    wrote as its last step, so when it panics the writer is still the one the
    middleware received; the literal text written on recovery is recorded as
    the document it spells. *)
Definition recoveryMiddleware {E : Type -> Type}
           (next : ResponseWriter -> Request -> Prog (Logger +' E) ResponseWriter)
           (w : ResponseWriter) (r : Request)
  : Prog (Logger +' E) ResponseWriter :=
  catch (next w r)
        (fun err =>
           call (inl1 (Printf ("PANIC: " ++ err))) ;;;
           let w := {| WHeader := Header_Set (WHeader w) "Content-Type" "application/json";
                       WCode := WCode w; WBody := WBody w |} in
           let w := WriteHeader w StatusInternalServerError in
           Ret {| WHeader := WHeader w; WCode := WCode w;
                  WBody := WBody w ++
                           [ json.Object [ ("success", json.Bool false);
                                           ("error", json.Str "internal server error") ] ] |}).

End httpInfra.

(* ====================================================================== *)
(** * package config (internal/config/config.go) *)
(* ====================================================================== *)

Module config.

Record Config : Type := {
  Port : string;
  GroqAPIKey : string;
  GroqBaseURL : string;
  DefaultModel : string;
  HTTPTimeout : Z                  (* time.Duration: int64 nanoseconds *)
}.

(** [time.Second]. *)
Definition Second : Z := 1000000000.

(** The value an int64 holds after an arithmetic result [n]. *)
Definition int64 (n : Z) : Z :=
  ((n + 9223372036854775808) mod 18446744073709551616 - 9223372036854775808)%Z.

(** What the package asks of the process: the environment, the .env loader
    and standard output. *)
Variant OS : Type -> Type :=
| Getenv (key : string) : OS string          (* the empty string when unset *)
| GodotenvLoad : OS (option error)
| Stdout (text : string) : OS unit.

Definition newline : string := String (ascii_of_nat 10) "".

Definition Println (line : string) : Prog OS unit := call (Stdout (line ++ newline)).

Definition Validate (c : Config) : option error :=
  if GroqAPIKey c =? "" then Some (errors_New "GROQ_API_KEY es requerido") else
  if GroqBaseURL c =? "" then Some (errors_New "GROQ_BASE_URL es requerido") else
  if Port c =? "" then Some (errors_New "PORT es requerido") else
  if (HTTPTimeout c <=? 0)%Z then Some (errors_New "HTTP_TIMEOUT debe ser mayor a 0") else
  None.

Definition GetServerAddress (c : Config) : string := ":" ++ Port c.

Definition getEnv (key defaultValue : string) : Prog OS string :=
  value <- call (Getenv key) ;;
  if negb (value =? "") then Ret value else Ret defaultValue.

(** [len(key) <= 8] hides everything; otherwise the first four and the last
    four bytes are shown. *)
Definition maskAPIKey (key : string) : option string :=
  if (Z.of_nat (String.length key) <=? 8)%Z then Some "***" else
  match slice key 0 4,
        slice key (Z.of_nat (String.length key) - 4) (Z.of_nat (String.length key)) with
  | Some front, Some back => Some (front ++ "..." ++ back)
  | _, _ => None
  end.

Section Parsing.
(** [strconv.Atoi], and the [%v] rendering of a [time.Duration]. *)
Variable strconv_Atoi : string -> Result Z.
Variable Duration_String : Z -> string.

Definition getEnvAsInt (key : string) (defaultValue : Z) : Prog OS Z :=
  valueStr <- call (Getenv key) ;;
  if valueStr =? "" then Ret defaultValue else
  match strconv_Atoi valueStr with
  | Err _ => Ret defaultValue
  | Ok value => Ret value
  end.

Definition getEnvAsDuration (key : string) (defaultValue : Z) : Prog OS Z :=
  valueStr <- call (Getenv key) ;;
  if valueStr =? "" then Ret defaultValue else
  match strconv_Atoi valueStr with
  | Err _ => Ret defaultValue
  | Ok seconds => Ret (int64 (seconds * Second))
  end.

Definition Load : Prog OS (Result Config) :=
  loaded <- call GodotenvLoad ;;
  match loaded with
  | Some _ =>
      Println "⚠️  Advertencia: archivo .env no encontrado, usando variables de entorno del sistema"
  | None => Ret tt
  end ;;;
  port <- getEnv "PORT" "8080" ;;
  groqAPIKey <- getEnv "GROQ_API_KEY" "" ;;
  groqBaseURL <- getEnv "GROQ_BASE_URL" "https://api.groq.com/openai/v1" ;;
  defaultModel <- getEnv "DEFAULT_MODEL" "llama-3.3-70b-versatile" ;;
  httpTimeout <- getEnvAsDuration "HTTP_TIMEOUT" (int64 (30 * Second)) ;;
  let config := {| Port := port; GroqAPIKey := groqAPIKey; GroqBaseURL := groqBaseURL;
                   DefaultModel := defaultModel; HTTPTimeout := httpTimeout |} in
  match Validate config with
  | Some err => Ret (Err err)
  | None => Ret (Ok config)
  end.

Definition Print (c : Config) : Prog OS unit :=
  Println "📋 Configuración cargada:" ;;;
  call (Stdout ("   • Puerto: " ++ Port c ++ newline)) ;;;
  call (Stdout ("   • Groq Base URL: " ++ GroqBaseURL c ++ newline)) ;;;
  call (Stdout ("   • Modelo por defecto: " ++ DefaultModel c ++ newline)) ;;;
  call (Stdout ("   • HTTP Timeout: " ++ Duration_String (HTTPTimeout c) ++ newline)) ;;;
  masked <- must (maskAPIKey (GroqAPIKey c)) ;;
  call (Stdout ("   • API Key: " ++ masked ++ newline)).

End Parsing.
End config.

(* ====================================================================== *)
(** * cmd/api/main.go: the assembled service *)
(* ====================================================================== *)

Module main.

(** Handler over the chat service, over the Groq client: what a request to
    [/api/v1/chat] runs, down to the outbound HTTP operation. *)
Definition chatOverRepository (json_Decode : option string -> Result httpInfra.ChatRequest)
           (s : application.ChatServiceImpl)
           (w : httpInfra.ResponseWriter) (r : nethttp.Request)
  : Prog (httpInfra.Logger +' domain.GroqRepository) httpInfra.ResponseWriter :=
  interp (onRight (application.service s)) (httpInfra.HandleChat json_Decode w r).

Definition chatEndpoint (json_Decode : option string -> Result httpInfra.ChatRequest)
           (lib : groq.Library)
           (s : application.ChatServiceImpl) (c : groq.GroqClient)
           (w : httpInfra.ResponseWriter) (r : nethttp.Request)
  : Prog (httpInfra.Logger +' nethttp.Client) httpInfra.ResponseWriter :=
  interp (onRight (groq.repository lib c)) (chatOverRepository json_Decode s w r).

Definition modelsOverRepository (s : application.ChatServiceImpl)
           (w : httpInfra.ResponseWriter) (r : nethttp.Request)
  : Prog (httpInfra.Logger +' domain.GroqRepository) httpInfra.ResponseWriter :=
  interp (onRight (application.service s)) (httpInfra.HandleGetModels w r).

Definition modelsEndpoint (lib : groq.Library)
           (s : application.ChatServiceImpl) (c : groq.GroqClient)
           (w : httpInfra.ResponseWriter) (r : nethttp.Request)
  : Prog (httpInfra.Logger +' nethttp.Client) httpInfra.ResponseWriter :=
  interp (onRight (groq.repository lib c)) (modelsOverRepository s w r).

(** Step 3 of [main]: the client and the service built from the loaded
    configuration. *)
Definition dependencies {E : Type -> Type} (cfg : config.Config)
  : Prog E (groq.GroqClient * application.ChatServiceImpl) :=
  groqClient <- groq.NewGroqClient (config.GroqAPIKey cfg) (config.GroqBaseURL cfg)
                                   (config.HTTPTimeout cfg) ;;
  let chatService := application.NewChatService (config.DefaultModel cfg) in
  Ret (groqClient, chatService).

End main.

(* ====================================================================== *)
(** * Test doubles and observations on a run *)
(* ====================================================================== *)

(** The logger's answer carries no information. *)
Definition logging : Stub httpInfra.Logger :=
  fun X op => match op in httpInfra.Logger T return T with httpInfra.Printf _ => tt end.

(** Lines handed to the logger during a run. *)
Definition logLines {E : Type -> Type} (t : list (event (httpInfra.Logger +' E)))
  : list string :=
  flat_map (fun e => match projT2 e with
                     | inl1 (httpInfra.Printf line) => [line]
                     | inr1 _ => []
                     end) t.

(** Invocations of the port next to the logger. *)
Definition portCalls {E : Type -> Type} (t : list (event (httpInfra.Logger +' E)))
  : list (event E) :=
  flat_map (fun e => match projT2 e with
                     | inl1 _ => []
                     | inr1 op => [ev op]
                     end) t.

(** The chat requests handed to [CreateChatCompletion]. *)
Definition completionRequests (t : list (event domain.GroqRepository))
  : list domain.ChatRequest :=
  flat_map (fun e => match projT2 e with
                     | domain.CreateChatCompletion request => [request]
                     | domain.ListModels => []
                     end) t.

(** The member [key] of a JSON object. *)
Fixpoint lookup (key : string) (members : list (string * json.Value)) : option json.Value :=
  match members with
  | [] => None
  | (k, v) :: rest => if k =? key then Some v else lookup key rest
  end.

Definition member (key : string) (v : json.Value) : option json.Value :=
  match v with
  | json.Object members => lookup key members
  | _ => None
  end.

(** The model a call settles on. *)
Definition chosenModel (s : application.ChatServiceImpl) (model : string) : string :=
  if model =? "" then application.defaultModel s else model.

(** What the service does with the repository's answer. *)
Definition afterCompletion (res : Result domain.ChatResponse) : Result domain.ChatResponse :=
  match res with
  | Err err => Err (Errorf_w "error al obtener respuesta de Groq: " err)
  | Ok response =>
      match domain.Choices response with
      | [] => Err (errors_New "la respuesta no contiene opciones")
      | _ :: _ => Ok response
      end
  end.

(** [unicode.IsSpace] on the ASCII range: tab, line feed, vertical tab, form
    feed, carriage return and space. *)
Definition isSpace (c : ascii) : bool :=
  match nat_of_ascii c with
  | 9 | 10 | 11 | 12 | 13 | 32 => true
  | _ => false
  end.

Definition onlyWhitespace (s : string) : bool :=
  forallb isSpace (list_ascii_of_string s).

(** The error [doRequest] builds for a reply outside the 2xx range. *)
Definition statusError (status : Z) (body : string) : error :=
  errors_New ("API retornó status " ++ fmt_d status ++ ": " ++ body).

(** An upstream that gives the same reply to every request. *)
Definition replying (resp : Result nethttp.Response) : Stub nethttp.Client :=
  fun X op => match op in nethttp.Client T return T with nethttp.Do _ => resp end.

(** Stubs for when nothing is wired behind a port. *)
Definition noService : Stub domain.ChatService :=
  fun X op =>
    match op in domain.ChatService T return T with
    | domain.SendMessage _ _ => Err application.ErrAPIFailure
    | domain.GetAvailableModels => Err application.ErrAPIFailure
    end.

Definition noRepository : Stub domain.GroqRepository :=
  fun X op =>
    match op in domain.GroqRepository T return T with
    | domain.CreateChatCompletion _ => Err application.ErrAPIFailure
    | domain.ListModels => Err application.ErrAPIFailure
    end.

(** The chat service as the handler sees it when [gateway] stands in for the
    repository, and the repository as the service sees it when [upstream]
    stands in for the Groq API. *)
Definition serviceOver (s : application.ChatServiceImpl)
           (gateway : Stub domain.GroqRepository) : Stub domain.ChatService :=
  answered (application.service s) gateway noService.

Definition repositoryOver (lib : groq.Library) (c : groq.GroqClient)
           (upstream : Stub nethttp.Client) : Stub domain.GroqRepository :=
  answered (groq.repository lib c) upstream noRepository.

(** The usage counters as the handler copies them. *)
Definition usageInfo (u : domain.Usage) : httpInfra.UsageInfo :=
  {| httpInfra.PromptTokens := domain.PromptTokens u;
     httpInfra.CompletionTokens := domain.CompletionTokens u;
     httpInfra.TotalTokens := domain.TotalTokens u |}.

(** The content of the first choice, or the empty string. *)
Definition firstContent (response : domain.ChatResponse) : string :=
  match domain.Choices response with
  | [] => ""
  | ch :: _ => domain.Content (domain.Message ch)
  end.

(** The temperature lies in the closed interval from 0 to 2. *)
Definition within_0_2 (t : float) : bool := (0 <=? t)%float && (t <=? 2)%float.

(** The characters [%d] can print first: a digit or the minus sign. *)
Definition startsNumber (c : ascii) : bool :=
  match c with
  | "0" | "1" | "2" | "3" | "4" | "5" | "6" | "7" | "8" | "9" | "-" => true
  | _ => false
  end%char.

(** The text of the error member the client sees on a service failure. *)
Definition genericText : string := "error al procesar el mensaje".

(** What the client receives whenever the chat service fails. *)
Definition genericFailure : httpInfra.ResponseWriter :=
  {| httpInfra.WHeader := [("Content-Type", "application/json")];
     httpInfra.WCode := 500;
     httpInfra.WBody :=
       [ json.Object [ ("success", json.Bool false);
                       ("error", json.Str genericText);
                       ("code", json.Number 500) ] ] |}.

(** An error reply on a fresh writer. *)
Definition errorReply (code : Z) (text : string) : httpInfra.ResponseWriter :=
  {| httpInfra.WHeader := [("Content-Type", "application/json")];
     httpInfra.WCode := code;
     httpInfra.WBody :=
       [ json.Object ([ ("success", json.Bool false); ("error", json.Str text) ]
                      ++ json.omitempty_int "code" code) ] |}.

(** The value a run panics with, if it does. *)
Fixpoint panicOf {E : Type -> Type} {R : Type} (stub : Stub E) (p : Prog E R)
  : option string :=
  match p with
  | Ret _ => None
  | Panic reason => Some reason
  | Vis e k => panicOf stub (k (stub _ e))
  end.

(** A model entry as the models handler presents it. *)
Definition modelDocument (m : domain.Model_) : json.Value :=
  json.Object [ ("id", json.Str (domain.Model_ID m));
                ("name", json.Str (domain.Model_ID m));
                ("owned_by", json.Str (domain.Model_OwnedBy m)) ].

(** The value of an environment variable, an empty one counting as unset. *)
Definition envOr (os : Stub config.OS) (key defaultValue : string) : string :=
  if os _ (config.Getenv key) =? "" then defaultValue else os _ (config.Getenv key).

(** The timeout [Load] settles on, and the configuration it builds before
    validating it. *)
Definition timeoutOf (strconv_Atoi : string -> Result Z) (os : Stub config.OS) : Z :=
  if os _ (config.Getenv "HTTP_TIMEOUT") =? "" then config.int64 (30 * config.Second)
  else match strconv_Atoi (os _ (config.Getenv "HTTP_TIMEOUT")) with
       | Err _ => config.int64 (30 * config.Second)
       | Ok seconds => config.int64 (seconds * config.Second)
       end.

Definition configured (strconv_Atoi : string -> Result Z) (os : Stub config.OS)
  : config.Config :=
  {| config.Port := envOr os "PORT" "8080";
     config.GroqAPIKey := envOr os "GROQ_API_KEY" "";
     config.GroqBaseURL := envOr os "GROQ_BASE_URL" "https://api.groq.com/openai/v1";
     config.DefaultModel := envOr os "DEFAULT_MODEL" "llama-3.3-70b-versatile";
     config.HTTPTimeout := timeoutOf strconv_Atoi os |}.

(** The text a run hands to standard output, piece by piece. *)
Definition printed (t : list (event config.OS)) : list string :=
  flat_map (fun e => match projT2 e with
                     | config.Stdout text => [text]
                     | _ => []
                     end) t.

(** ** A stubbed deployment *)

Module fixture.

(** The service and client as [main] builds them from the default
    configuration. *)
Definition chatService : application.ChatServiceImpl :=
  {| application.defaultModel := "llama-3.3-70b-versatile" |}.

Definition groqClient : groq.GroqClient :=
  {| groq.baseURL := "https://api.groq.com/openai/v1"; groq.apiKey := "test-key" |}.

(** The upstream's completion: one choice saying hello, usage 5, 3 and 8,
    and no model name. *)
Definition completion : domain.ChatResponse :=
  {| domain.ID := "chatcmpl-1";
     domain.Object := "chat.completion";
     domain.Created := 0;
     domain.ChatResponse_Model := "";
     domain.Choices :=
       [ {| domain.Index := 0;
            domain.Message := {| domain.Role := "assistant"; domain.Content := "hello" |};
            domain.FinishReason := "stop" |} ];
     domain.ChatResponse_Usage :=
       {| domain.PromptTokens := 5; domain.CompletionTokens := 3;
          domain.TotalTokens := 8 |} |}.

(** Library functions that accept everything; every body decodes to
    [completion]. *)
Definition library : groq.Library :=
  {| groq.json_Marshal := fun _ => Ok "request-json";
     groq.json_Unmarshal_ChatResponse := fun _ => Ok completion;
     groq.json_Unmarshal_ModelsResponse :=
       fun _ => Ok {| domain.ModelsResponse_Object := "list"; domain.Data := [] |};
     groq.http_NewRequestWithContext :=
       fun method url body =>
         Ok {| nethttp.Method := method; nethttp.URL := url;
               nethttp.ReqHeader := []; nethttp.Body := body |} |}.

(** Library functions whose deserializers reject every body. *)
Definition strictLibrary : groq.Library :=
  {| groq.json_Marshal := fun _ => Ok "request-json";
     groq.json_Unmarshal_ChatResponse :=
       fun _ => Err (libraryError "unexpected end of JSON input");
     groq.json_Unmarshal_ModelsResponse :=
       fun _ => Err (libraryError "unexpected end of JSON input");
     groq.http_NewRequestWithContext :=
       fun method url body =>
         Ok {| nethttp.Method := method; nethttp.URL := url;
               nethttp.ReqHeader := []; nethttp.Body := body |} |}.

(** A client request; its body decodes to the DTO [dto]. *)
Definition post : nethttp.Request :=
  {| nethttp.Method := "POST"; nethttp.URL := "/api/v1/chat";
     nethttp.ReqHeader := [("Content-Type", "application/json")];
     nethttp.Body := Some "chat-json" |}.

Definition decodeTo (dto : httpInfra.ChatRequest)
  : option string -> Result httpInfra.ChatRequest :=
  fun _ => Ok dto.

Definition hi : httpInfra.ChatRequest :=
  {| httpInfra.Message := "hi"; httpInfra.Model := "";
     httpInfra.Temperature := None; httpInfra.MaxTokens := 0 |}.

(** A client asking for temperature 0.5 and at most 64 tokens. *)
Definition tuned : httpInfra.ChatRequest :=
  {| httpInfra.Message := "hi"; httpInfra.Model := "";
     httpInfra.Temperature := Some 0.5%float; httpInfra.MaxTokens := 64 |}.

(** A client asking for temperature 2.5. *)
Definition hot : httpInfra.ChatRequest :=
  {| httpInfra.Message := "hi"; httpInfra.Model := "";
     httpInfra.Temperature := Some 2.5%float; httpInfra.MaxTokens := 0 |}.

(** A repository stub that answers with [completion]. *)
Definition gateway : Stub domain.GroqRepository :=
  fun X op =>
    match op in domain.GroqRepository T return T with
    | domain.CreateChatCompletion _ => Ok completion
    | domain.ListModels =>
        Ok {| domain.ModelsResponse_Object := "list"; domain.Data := [] |}
    end.

(** A chat-service stub that always fails. *)
Definition failing : Stub domain.ChatService :=
  fun X op =>
    match op in domain.ChatService T return T with
    | domain.SendMessage _ _ => Err (statusError 429 "rate limit exceeded")
    | domain.GetAvailableModels => Err (statusError 429 "rate limit exceeded")
    end.

(** A process environment with the API key and a timeout of 45 seconds set,
    nothing else, and no .env file. *)
Definition os : Stub config.OS :=
  fun X op =>
    match op in config.OS T return T with
    | config.Getenv key =>
        if key =? "GROQ_API_KEY" then "gsk_live_0123456789abcdef"
        else if key =? "HTTP_TIMEOUT" then "45"
        else ""
    | config.GodotenvLoad => Some (libraryError "open .env: no such file or directory")
    | config.Stdout _ => tt
    end.

(** [strconv.Atoi] on the one number the environment holds. *)
Definition atoi (s : string) : Result Z :=
  if s =? "45" then Ok 45%Z
  else Err (libraryError "strconv.Atoi: parsing: invalid syntax").

(** The configuration [Load] yields in that environment. *)
Definition loaded : config.Config :=
  {| config.Port := "8080";
     config.GroqAPIKey := "gsk_live_0123456789abcdef";
     config.GroqBaseURL := "https://api.groq.com/openai/v1";
     config.DefaultModel := "llama-3.3-70b-versatile";
     config.HTTPTimeout := 45000000000 |}.

(** A service stub listing two models. *)
Definition catalogue : domain.ModelsResponse :=
  {| domain.ModelsResponse_Object := "list";
     domain.Data :=
       [ {| domain.Model_ID := "llama-3.3-70b-versatile"; domain.Model_Object := "model";
            domain.Model_Created := 0; domain.Model_OwnedBy := "Meta" |};
         {| domain.Model_ID := "mixtral-8x7b-32768"; domain.Model_Object := "model";
            domain.Model_Created := 0; domain.Model_OwnedBy := "Mistral AI" |} ] |}.

Definition listing : Stub domain.ChatService :=
  fun X op =>
    match op in domain.ChatService T return T with
    | domain.SendMessage _ _ => Ok completion
    | domain.GetAvailableModels => Ok catalogue
    end.

(** Library functions for which every body deserializes to [catalogue]. *)
Definition catalogueLibrary : groq.Library :=
  {| groq.json_Marshal := fun _ => Ok "request-json";
     groq.json_Unmarshal_ChatResponse := fun _ => Ok completion;
     groq.json_Unmarshal_ModelsResponse := fun _ => Ok catalogue;
     groq.http_NewRequestWithContext :=
       fun method url body =>
         Ok {| nethttp.Method := method; nethttp.URL := url;
               nethttp.ReqHeader := []; nethttp.Body := body |} |}.

(** Library functions for which every body deserializes to a completion
    without choices. *)
Definition hollowLibrary : groq.Library :=
  {| groq.json_Marshal := fun _ => Ok "request-json";
     groq.json_Unmarshal_ChatResponse :=
       fun _ => Ok {| domain.ID := "chatcmpl-2"; domain.Object := "chat.completion";
                      domain.Created := 0; domain.ChatResponse_Model := "";
                      domain.Choices := [];
                      domain.ChatResponse_Usage :=
                        {| domain.PromptTokens := 0; domain.CompletionTokens := 0;
                           domain.TotalTokens := 0 |} |};
     groq.json_Unmarshal_ModelsResponse := fun _ => Ok catalogue;
     groq.http_NewRequestWithContext :=
       fun method url body =>
         Ok {| nethttp.Method := method; nethttp.URL := url;
               nethttp.ReqHeader := []; nethttp.Body := body |} |}.

(** A service stub whose catalogue is empty. *)
Definition emptyListing : Stub domain.ChatService :=
  fun X op =>
    match op in domain.ChatService T return T with
    | domain.SendMessage _ _ => Ok completion
    | domain.GetAvailableModels =>
        Ok {| domain.ModelsResponse_Object := "list"; domain.Data := [] |}
    end.

(** A completion with two choices. *)
Definition twofold : domain.ChatResponse :=
  {| domain.ID := "chatcmpl-3";
     domain.Object := "chat.completion";
     domain.Created := 0;
     domain.ChatResponse_Model := "llama-3.3-70b-versatile";
     domain.Choices :=
       [ {| domain.Index := 0;
            domain.Message := {| domain.Role := "assistant"; domain.Content := "hello" |};
            domain.FinishReason := "stop" |};
         {| domain.Index := 1;
            domain.Message := {| domain.Role := "assistant"; domain.Content := "good day" |};
            domain.FinishReason := "stop" |} ];
     domain.ChatResponse_Usage :=
       {| domain.PromptTokens := 5; domain.CompletionTokens := 6;
          domain.TotalTokens := 11 |} |}.

Definition twofoldLibrary : groq.Library :=
  {| groq.json_Marshal := fun _ => Ok "request-json";
     groq.json_Unmarshal_ChatResponse := fun _ => Ok twofold;
     groq.json_Unmarshal_ModelsResponse := fun _ => Ok catalogue;
     groq.http_NewRequestWithContext :=
       fun method url body =>
         Ok {| nethttp.Method := method; nethttp.URL := url;
               nethttp.ReqHeader := []; nethttp.Body := body |} |}.

(** A GET for the models. *)
Definition get : nethttp.Request :=
  {| nethttp.Method := "GET"; nethttp.URL := "/api/v1/models";
     nethttp.ReqHeader := []; nethttp.Body := None |}.

(** A client asking for an empty message at temperature 2.5 with a negative
    max_tokens. *)
Definition allWrong : httpInfra.ChatRequest :=
  {| httpInfra.Message := ""; httpInfra.Model := "";
     httpInfra.Temperature := Some 2.5%float; httpInfra.MaxTokens := -1 |}.

(** A repository stub that always fails. *)
Definition down : Stub domain.GroqRepository :=
  fun X op =>
    match op in domain.GroqRepository T return T with
    | domain.CreateChatCompletion _ => Err (libraryError "connection refused")
    | domain.ListModels => Err (libraryError "connection refused")
    end.

End fixture.

(* ====================================================================== *)
(** * Properties *)
(* ====================================================================== *)

(** ** Strings *)

Lemma length_zero_iff_empty (s : string) : (String.length s =? 0)%nat = true <-> s = "".
Proof.
  destruct s as [|c s]; simpl; split; intro H; try reflexivity; discriminate.
Qed.

Lemma eqb_empty_false (s : string) : s <> "" -> (s =? "") = false.
Proof. intro H. apply String.eqb_neq. exact H. Qed.

Lemma length_eqb_nonempty (s : string) : s <> "" -> (String.length s =? 0)%nat = false.
Proof. destruct s; [congruence | reflexivity]. Qed.

(** ** The domain helpers *)

Section DomainFacts.
Import domain.

Lemma GetResponseContent_value (c : ChatResponse) :
  GetResponseContent c =
  Some match Choices c with
       | [] => ""
       | ch :: _ => Content (Message ch)
       end.
Proof.
  unfold GetResponseContent, index. destruct (Choices c) as [|ch rest]; reflexivity.
Qed.

Lemma IsComplete_value (c : ChatResponse) :
  IsComplete c =
  Some match Choices c with
       | [] => false
       | ch :: _ => FinishReason ch =? "stop"
       end.
Proof.
  unfold IsComplete, index. destruct (Choices c) as [|ch rest]; reflexivity.
Qed.

(** C10. [GetResponseContent] and [IsComplete] never take the panic branch of
    the slice access, whatever the response: the first yields the content of
    the first choice, or the empty string when there is no choice; the second
    yields [false] when there is no choice. *)
Theorem domain_helpers_total (c : ChatResponse) :
  GetResponseContent c =
    Some match Choices c with
         | [] => ""
         | ch :: _ => Content (Message ch)
         end
  /\ IsComplete c =
    Some match Choices c with
         | [] => false
         | ch :: _ => FinishReason ch =? "stop"
         end.
Proof. split; [apply GetResponseContent_value | apply IsComplete_value]. Qed.

End DomainFacts.

(** ** The chat service *)

Section ServiceFacts.
Import domain application.

Lemma SendMessage_empty (s : ChatServiceImpl) (model : string) :
  SendMessage s "" model = Ret (Err ErrEmptyMessage).
Proof. reflexivity. Qed.

Lemma SendMessage_no_model (s : ChatServiceImpl) (message model : string) :
  message <> "" -> chosenModel s model = "" ->
  SendMessage s message model = Ret (Err ErrEmptyModel).
Proof.
  intros Hm Hc. unfold SendMessage. fold (chosenModel s model).
  rewrite (length_eqb_nonempty _ Hm), Hc. reflexivity.
Qed.

Lemma SendMessage_calls (s : ChatServiceImpl) (message model : string) :
  message <> "" -> chosenModel s model <> "" ->
  exists k,
    SendMessage s message model =
      Vis (CreateChatCompletion
             (NewChatRequest (chosenModel s model) [NewChatMessage "user" message])) k
    /\ forall res, k res = Ret (afterCompletion res).
Proof.
  intros Hm Hc. unfold SendMessage. fold (chosenModel s model).
  rewrite (length_eqb_nonempty _ Hm), (eqb_empty_false _ Hc).
  eexists. split; [reflexivity|].
  intros [response|err]; simpl; [|reflexivity].
  destruct (Choices response); reflexivity.
Qed.

Lemma SendMessage_exec (s : ChatServiceImpl) (message model : string)
      (gateway : Stub GroqRepository) :
  message <> "" -> chosenModel s model <> "" ->
  let request := NewChatRequest (chosenModel s model) [NewChatMessage "user" message] in
  exec gateway (SendMessage s message model) =
    ([ev (CreateChatCompletion request)],
     Some (afterCompletion (gateway _ (CreateChatCompletion request)))).
Proof.
  intros Hm Hc request.
  destruct (SendMessage_calls s message model Hm Hc) as [k [-> Hk]].
  simpl. rewrite Hk. reflexivity.
Qed.

(** C3. With the empty message [SendMessage] returns [ErrEmptyMessage] at
    once, for every model argument: run against any repository stub it
    performs no operation, so [CreateChatCompletion] is called zero times. *)
Theorem SendMessage_empty_message (s : ChatServiceImpl) (model : string)
        (gateway : Stub GroqRepository) :
  SendMessage s "" model = Ret (Err ErrEmptyMessage)
  /\ exec gateway (SendMessage s "" model) = ([], Some (Err ErrEmptyMessage))
  /\ length (completionRequests (trace gateway (SendMessage s "" model))) = 0%nat.
Proof. repeat split. Qed.

(** C2. With a non-empty message and the empty model string, the only
    operation [SendMessage] performs is one [CreateChatCompletion] whose
    request carries the configured default model; when the default model is
    empty as well, it returns [ErrEmptyModel] and performs no operation. *)
Theorem SendMessage_default_model (s : ChatServiceImpl) (message : string)
        (gateway : Stub GroqRepository) :
  message <> "" ->
  (defaultModel s <> "" ->
   exists request,
     trace gateway (SendMessage s message "") = [ev (CreateChatCompletion request)]
     /\ Model request = defaultModel s)
  /\ (defaultModel s = "" ->
      exec gateway (SendMessage s message "") = ([], Some (Err ErrEmptyModel))).
Proof.
  intros Hm. split; intros Hd.
  - eexists. unfold trace. rewrite SendMessage_exec by assumption. split; reflexivity.
  - rewrite SendMessage_no_model by assumption. reflexivity.
Qed.

(** C7. When the repository call succeeds, [SendMessage] fails with the
    error "la respuesta no contiene opciones" (and hands back no response) if
    the response has no choices, and otherwise returns that very response. *)
Theorem SendMessage_checks_choices (s : ChatServiceImpl) (message model : string)
        (gateway : Stub GroqRepository) (response : ChatResponse) :
  message <> "" -> chosenModel s model <> "" ->
  gateway _ (CreateChatCompletion
               (NewChatRequest (chosenModel s model) [NewChatMessage "user" message]))
    = Ok response ->
  (Choices response = [] ->
   outcome gateway (SendMessage s message model)
     = Some (Err (errors_New "la respuesta no contiene opciones")))
  /\ (Choices response <> [] ->
      outcome gateway (SendMessage s message model) = Some (Ok response)).
Proof.
  intros Hm Hc Hg. unfold outcome. rewrite SendMessage_exec by assumption.
  simpl. rewrite Hg. simpl. split; intros Hch.
  - rewrite Hch. reflexivity.
  - destruct (Choices response); [congruence | reflexivity].
Qed.

End ServiceFacts.

(** ** Validation of the request DTO *)

Section ValidateFacts.
Import httpInfra.

Lemma Validate_empty_message (r : ChatRequest) :
  Validate r = Some ErrEmptyMessage <-> Message r = "".
Proof.
  unfold Validate. split.
  - destruct (String.eqb_spec (Message r) "") as [He|He]; [intros _; exact He|].
    destruct (match Temperature r with Some _ => _ | None => _ end);
      [discriminate|].
    destruct (MaxTokens r <? 0)%Z; discriminate.
  - intros ->. reflexivity.
Qed.

Lemma Validate_plain (message model : string) (maxTokens : Z) :
  message <> "" -> (0 <= maxTokens)%Z ->
  Validate {| Message := message; Model := model;
              Temperature := None; MaxTokens := maxTokens |} = None.
Proof.
  intros Hm Hk. unfold Validate. simpl.
  rewrite (eqb_empty_false _ Hm).
  destruct (Z.ltb_spec maxTokens 0); [lia | reflexivity].
Qed.

End ValidateFacts.

(** ** Whitespace is not emptiness *)

Section Whitespace.
Import domain application.

Lemma SendMessage_rejects_iff_empty (s : ChatServiceImpl) (message model : string) :
  SendMessage s message model = Ret (Err ErrEmptyMessage) <-> String.length message = 0%nat.
Proof.
  split.
  - intros H. destruct message as [|c rest]; [reflexivity|].
    assert (Hm : String c rest <> "") by discriminate.
    destruct (String.eqb_spec (chosenModel s model) "") as [Hc|Hc].
    + rewrite (SendMessage_no_model s _ model Hm Hc) in H. discriminate.
    + destruct (SendMessage_calls s _ model Hm Hc) as [k [E _]].
      rewrite E in H. discriminate.
  - intros H. destruct message; [reflexivity | discriminate].
Qed.

(** C9. Both emptiness checks look at the length of the message and nothing
    else, so a non-empty message made of whitespace only is accepted by the
    DTO validation, is not rejected by [SendMessage], and reaches the
    repository unchanged as the content of the single user message. *)
Theorem whitespace_message_is_forwarded
        (s : ChatServiceImpl) (message model : string) (maxTokens : Z)
        (gateway : Stub GroqRepository) :
  message <> "" -> onlyWhitespace message = true ->
  (0 <= maxTokens)%Z -> chosenModel s model <> "" ->
  (forall r, httpInfra.Validate r = Some httpInfra.ErrEmptyMessage
             <-> String.length (httpInfra.Message r) = 0%nat)
  /\ (forall m, SendMessage s m model = Ret (Err ErrEmptyMessage)
                <-> String.length m = 0%nat)
  /\ httpInfra.Validate {| httpInfra.Message := message; httpInfra.Model := model;
                           httpInfra.Temperature := None;
                           httpInfra.MaxTokens := maxTokens |} = None
  /\ completionRequests (trace gateway (SendMessage s message model))
     = [ {| Messages := [ {| Role := "user"; Content := message |} ];
            Model := chosenModel s model;
            Temperature := None; MaxTokens := 0 |} ].
Proof.
  intros Hm _ Hk Hc. repeat split.
  - intros H. apply Validate_empty_message in H. rewrite H. reflexivity.
  - intros H. apply Validate_empty_message.
    destruct (httpInfra.Message r); [reflexivity | discriminate].
  - apply SendMessage_rejects_iff_empty.
  - apply SendMessage_rejects_iff_empty.
  - apply Validate_plain; assumption.
  - unfold trace. rewrite SendMessage_exec by assumption. reflexivity.
Qed.

End Whitespace.

(** ** Running programs *)

Lemma exec_bind {E : Type -> Type} {A B : Type}
      (stub : Stub E) (p : Prog E A) (f : A -> Prog E B) :
  exec stub (bind p f) =
    match exec stub p with
    | (t, Some a) => let (t', r) := exec stub (f a) in ((t ++ t')%list, r)
    | (t, None) => (t, None)
    end.
Proof.
  induction p as [a|reason|X e k IH]; simpl.
  - destruct (exec stub (f a)); reflexivity.
  - reflexivity.
  - rewrite IH. destruct (exec stub (k (stub X e))) as [t [a|]].
    + destruct (exec stub (f a)); reflexivity.
    + reflexivity.
Qed.

Lemma outcome_bind {E : Type -> Type} {A B : Type}
      (stub : Stub E) (p : Prog E A) (f : A -> Prog E B) (a : A) :
  outcome stub p = Some a -> outcome stub (bind p f) = outcome stub (f a).
Proof.
  unfold outcome. rewrite exec_bind. destruct (exec stub p) as [t r]. simpl.
  intros ->. destruct (exec stub (f a)); reflexivity.
Qed.

(** ** Substrings *)

Lemma app_string_assoc (a b c : string) : (a ++ b) ++ c = a ++ b ++ c.
Proof. induction a as [|x a IH]; simpl; [reflexivity | f_equal; exact IH]. Qed.

Lemma app_string_empty (s : string) : s ++ "" = s.
Proof. induction s as [|x s IH]; simpl; [reflexivity | f_equal; exact IH]. Qed.

Lemma prefix_app (s t : string) : prefix s (s ++ t) = true.
Proof.
  induction s as [|a s IH]; simpl.
  - destruct t; reflexivity.
  - destruct (ascii_dec a a) as [_|N]; [exact IH | congruence].
Qed.

Lemma Contains_unfold (s substr : string) :
  Contains s substr =
    prefix substr s ||
    match s with
    | EmptyString => false
    | String _ rest => Contains rest substr
    end.
Proof. destruct s; reflexivity. Qed.

Lemma Contains_here (s t : string) : Contains (s ++ t) s = true.
Proof. rewrite Contains_unfold, prefix_app. reflexivity. Qed.

Lemma Contains_app (pre s post : string) : Contains (pre ++ s ++ post) s = true.
Proof.
  induction pre as [|a pre IH].
  - exact (Contains_here s post).
  - simpl. rewrite IH. apply orb_true_r.
Qed.

Lemma Contains_tail (pre s : string) : Contains (pre ++ s) s = true.
Proof.
  rewrite <- (app_string_empty s) at 1. apply Contains_app.
Qed.

(** ** The Groq client *)

Section ClientFacts.
Import domain nethttp groq.

Variable lib : Library.
Variable c : GroqClient.

(** Building the outbound request succeeds. *)
Hypothesis request_built :
  forall method url body, exists req, http_NewRequestWithContext lib method url body = Ok req.

Lemma range_outside (status : Z) :
  (status < 200 \/ 300 <= status)%Z ->
  (status <? 200)%Z || (status >=? 300)%Z = true.
Proof.
  intros H. apply orb_true_iff.
  destruct H; [left; apply Z.ltb_lt | right; apply Z.geb_le]; lia.
Qed.

Lemma range_inside (status : Z) :
  (200 <= status < 300)%Z ->
  (status <? 200)%Z || (status >=? 300)%Z = false.
Proof.
  intros H. apply orb_false_iff. split.
  - apply Z.ltb_ge. lia.
  - destruct (Z.geb_spec status 300); [lia | reflexivity].
Qed.

Lemma doRequest_rejected (method url : string) (data : option string)
      (status : Z) (body : string) :
  (status < 200 \/ 300 <= status)%Z ->
  outcome (replying (Ok {| StatusCode := status; RespBody := Ok body |}))
          (doRequest lib c method url data)
  = Some (Err (statusError status body)).
Proof.
  intros Hs. unfold doRequest.
  destruct (request_built method url data) as [req ->].
  unfold outcome. simpl. rewrite (range_outside _ Hs). reflexivity.
Qed.

Lemma doRequest_accepted (method url : string) (data : option string)
      (status : Z) (body : string) :
  (200 <= status < 300)%Z ->
  outcome (replying (Ok {| StatusCode := status; RespBody := Ok body |}))
          (doRequest lib c method url data)
  = Some (Ok body).
Proof.
  intros Hs. unfold doRequest.
  destruct (request_built method url data) as [req ->].
  unfold outcome. simpl. rewrite (range_inside _ Hs). reflexivity.
Qed.

Lemma statusError_mentions (pre : string) (status : Z) (body : string) :
  Contains (Error (Errorf_w pre (statusError status body))) (fmt_d status) = true
  /\ Contains (Error (Errorf_w pre (statusError status body))) body = true.
Proof.
  unfold Errorf_w, statusError, errors_New. cbn [Error]. split.
  - rewrite <- app_string_assoc. apply Contains_app.
  - rewrite <- !app_string_assoc. apply Contains_tail.
Qed.

End ClientFacts.

Section ClientFailures.
Import domain nethttp groq.

(** C6. When the upstream answers with a status outside 200..299 and raw
    body [body], [CreateChatCompletion] and [ListModels] fail, and the error
    message carries the status code in decimal and the body verbatim.  When
    the status is inside the range and the body does not deserialize, they
    fail with the parse error, whose message differs from that of every
    rejection error. *)
Theorem client_reports_upstream_failures
        (lib : Library) (c : GroqClient) (request : ChatRequest) (data : string)
        (status : Z) (body : string) :
  (forall method url b, exists req, http_NewRequestWithContext lib method url b = Ok req) ->
  json_Marshal lib request = Ok data ->
  ((status < 200 \/ 300 <= status)%Z ->
   outcome (replying (Ok {| StatusCode := status; RespBody := Ok body |}))
           (CreateChatCompletion lib c request)
     = Some (Err (Errorf_w "error en la petición HTTP: " (statusError status body)))
   /\ outcome (replying (Ok {| StatusCode := status; RespBody := Ok body |}))
              (ListModels lib c)
     = Some (Err (Errorf_w "error al obtener modelos: " (statusError status body)))
   /\ (forall pre,
         Error (Errorf_w pre (statusError status body))
           = pre ++ "API retornó status " ++ fmt_d status ++ ": " ++ body
         /\ Contains (Error (Errorf_w pre (statusError status body))) (fmt_d status) = true
         /\ Contains (Error (Errorf_w pre (statusError status body))) body = true))
  /\ ((200 <= status < 300)%Z ->
      forall jerr,
        (json_Unmarshal_ChatResponse lib body = Err jerr ->
         outcome (replying (Ok {| StatusCode := status; RespBody := Ok body |}))
                 (CreateChatCompletion lib c request)
           = Some (Err (Errorf_w "error al parsear respuesta: " jerr)))
        /\ (json_Unmarshal_ModelsResponse lib body = Err jerr ->
            outcome (replying (Ok {| StatusCode := status; RespBody := Ok body |}))
                    (ListModels lib c)
              = Some (Err (Errorf_w "error al parsear modelos: " jerr))))
  /\ (forall jerr status' body',
        Error (Errorf_w "error al parsear respuesta: " jerr)
          <> Error (Errorf_w "error en la petición HTTP: " (statusError status' body'))
        /\ Error (Errorf_w "error al parsear modelos: " jerr)
          <> Error (Errorf_w "error al obtener modelos: " (statusError status' body'))).
Proof.
  intros Hnew Hmarshal. split; [|split].
  - intros Hs. split; [|split].
    + unfold CreateChatCompletion. rewrite Hmarshal.
      erewrite outcome_bind by (apply doRequest_rejected; assumption).
      reflexivity.
    + unfold ListModels.
      erewrite outcome_bind by (apply doRequest_rejected; assumption).
      reflexivity.
    + intros pre. split; [reflexivity | apply statusError_mentions].
  - intros Hs jerr. split; intros Hj.
    + unfold CreateChatCompletion. rewrite Hmarshal.
      erewrite outcome_bind by (apply doRequest_accepted; assumption).
      cbn beta iota. rewrite Hj. reflexivity.
    + unfold ListModels.
      erewrite outcome_bind by (apply doRequest_accepted; assumption).
      cbn beta iota. rewrite Hj. reflexivity.
  - intros jerr status' body'. split; intro H; simpl in H; discriminate.
Qed.

End ClientFailures.

(** ** Running through an adapter *)

Lemma exec_liftR {L F : Type -> Type} {R : Type}
      (l : Stub L) (st : Stub F) (p : Prog F R) :
  exec (stubs l st) (interp liftR p) = (map inRight (trace st p), outcome st p).
Proof.
  unfold trace, outcome.
  induction p as [a|reason|X e k IH]; simpl; try reflexivity.
  rewrite IH. destruct (exec st (k (st X e))); reflexivity.
Qed.

Lemma exec_interp {E F : Type -> Type} {R : Type}
      (h : Adapter E F) (st : Stub F) (fb : Stub E) (p : Prog E R) :
  (forall X e, outcome st (h X e) <> None) ->
  exec st (interp h p) =
    (flat_map (fun e => trace st (h (projT1 e) (projT2 e))) (trace (answered h st fb) p),
     outcome (answered h st fb) p).
Proof.
  intros Htotal. unfold trace, outcome.
  induction p as [a|reason|X e k IH]; simpl; try reflexivity.
  rewrite exec_bind.
  pose proof (Htotal X e) as Hne. unfold outcome in Hne.
  destruct (exec st (h X e)) as [t r] eqn:Eh. simpl in Hne.
  destruct r as [a|]; [|congruence].
  assert (Ha : answered h st fb X e = a).
  { unfold answered, outcome. rewrite Eh. reflexivity. }
  rewrite IH, Ha.
  destruct (exec (answered h st fb) (k a)) as [t' r']. simpl.
  rewrite Eh. reflexivity.
Qed.

Lemma exec_ext {E : Type -> Type} {R : Type} (st st' : Stub E) (p : Prog E R) :
  (forall X e, st X e = st' X e) -> exec st p = exec st' p.
Proof.
  intros H. induction p as [a|reason|X e k IH]; simpl; try reflexivity.
  rewrite (H X e), IH. reflexivity.
Qed.

Lemma onRight_total {L E F : Type -> Type}
      (h : Adapter E F) (l : Stub L) (st : Stub F) :
  (forall X e, outcome st (h X e) <> None) ->
  forall X e, outcome (stubs l st) (onRight (L := L) h X e) <> None.
Proof.
  intros Htotal X [a|b]; simpl.
  - discriminate.
  - unfold outcome. rewrite exec_liftR. simpl. apply Htotal.
Qed.

Lemma answered_onRight {L E F : Type -> Type}
      (h : Adapter E F) (l : Stub L) (st : Stub F) (fb : Stub E) (X : Type)
      (e : (L +' E) X) :
  answered (onRight h) (stubs l st) (stubs l fb) X e = stubs l (answered h st fb) X e.
Proof.
  destruct e as [a|b]; unfold answered; simpl.
  - reflexivity.
  - unfold outcome at 1. rewrite exec_liftR. reflexivity.
Qed.

Lemma portCalls_inRight {L F : Type -> Type} (t : list (event F)) :
  portCalls (map (inRight (L := httpInfra.Logger)) t) = t.
Proof.
  induction t as [|[X e] t IH]; simpl; [reflexivity | f_equal; exact IH].
Qed.

Lemma portCalls_app {E : Type -> Type} (t u : list (event (httpInfra.Logger +' E))) :
  portCalls (t ++ u)%list = (portCalls t ++ portCalls u)%list.
Proof. unfold portCalls. apply flat_map_app. Qed.

(** ** The adapters never panic *)

Lemma service_total (s : application.ChatServiceImpl)
      (gateway : Stub domain.GroqRepository) (X : Type) (op : domain.ChatService X) :
  outcome gateway (application.service s X op) <> None.
Proof.
  destruct op as [message model|]; simpl.
  - destruct (String.eqb_spec message "") as [->|Hm]; [discriminate|].
    destruct (String.eqb_spec (chosenModel s model) "") as [Hc|Hc].
    + rewrite (SendMessage_no_model s message model Hm Hc). discriminate.
    + unfold outcome. rewrite (SendMessage_exec s message model gateway Hm Hc).
      discriminate.
  - unfold outcome, application.GetAvailableModels. simpl.
    destruct (gateway _ domain.ListModels); discriminate.
Qed.

Lemma doRequest_total (lib : groq.Library) (c : groq.GroqClient)
      (upstream : Stub nethttp.Client) (method url : string) (data : option string) :
  exists r, exec upstream (groq.doRequest lib c method url data)
            = (fst (exec upstream (groq.doRequest lib c method url data)), Some r).
Proof.
  unfold groq.doRequest.
  destruct (groq.http_NewRequestWithContext lib method url data) as [req|err];
    [|eexists; reflexivity].
  simpl. destruct (upstream _ _) as [resp|err]; [|eexists; reflexivity].
  destruct (nethttp.RespBody resp) as [body|err]; [|eexists; reflexivity].
  destruct (_ || _); eexists; reflexivity.
Qed.

Lemma repository_total (lib : groq.Library) (c : groq.GroqClient)
      (upstream : Stub nethttp.Client) (X : Type) (op : domain.GroqRepository X) :
  outcome upstream (groq.repository lib c X op) <> None.
Proof.
  unfold outcome. destruct op as [request|]; simpl.
  - unfold groq.CreateChatCompletion.
    destruct (groq.json_Marshal lib request) as [data|err]; [|discriminate].
    rewrite exec_bind.
    destruct (doRequest_total lib c upstream nethttp.MethodPost
                (groq.baseURL c ++ groq.ChatCompletionsEndpoint) (Some data)) as [r ->].
    destruct r as [body|err]; simpl; [|discriminate].
    destruct (groq.json_Unmarshal_ChatResponse lib body); discriminate.
  - unfold groq.ListModels. rewrite exec_bind.
    destruct (doRequest_total lib c upstream nethttp.MethodGet
                (groq.baseURL c ++ groq.ModelsEndpoint) None) as [r ->].
    destruct r as [body|err]; simpl; [|discriminate].
    destruct (groq.json_Unmarshal_ModelsResponse lib body); discriminate.
Qed.

(** ** The chat handler, branch by branch *)

Section HandlerFacts.
Import nethttp httpInfra.

Variable json_Decode : option string -> Result ChatRequest.
Variable svc : Stub domain.ChatService.

Lemma HandleChat_exec (w : ResponseWriter) (r : Request) :
  Method r = MethodPost ->
  exec (stubs logging svc) (HandleChat json_Decode w r) =
    match json_Decode (Body r) with
    | Err err =>
        ([ev (inl1 (Printf ("[" ++ Method r ++ "] " ++ URL r ++ " - HandleChat")))],
         Some (writeErrorResponse w ("JSON inválido: " ++ Error err) StatusBadRequest))
    | Ok req =>
        match Validate req with
        | Some err =>
            ([ev (inl1 (Printf ("[" ++ Method r ++ "] " ++ URL r ++ " - HandleChat")))],
             Some (writeErrorResponse w (Error err) StatusBadRequest))
        | None =>
            match svc _ (domain.SendMessage (Message req) (Model req)) with
            | Err err =>
                ([ev (inl1 (Printf ("[" ++ Method r ++ "] " ++ URL r ++ " - HandleChat")));
                  ev (inr1 (domain.SendMessage (Message req) (Model req)));
                  ev (inl1 (Printf ("Error en servicio: " ++ Error err)))],
                 Some (writeErrorResponse w "error al procesar el mensaje"
                                          StatusInternalServerError))
            | Ok response =>
                ([ev (inl1 (Printf ("[" ++ Method r ++ "] " ++ URL r ++ " - HandleChat")));
                  ev (inr1 (domain.SendMessage (Message req) (Model req)))],
                 Some (writeJSONResponse w
                         (NewChatResponse (firstContent response)
                            (domain.ChatResponse_Model response)
                            (Some (usageInfo (domain.ChatResponse_Usage response))))
                         StatusOK))
            end
        end
    end.
Proof.
  intros Hpost. unfold HandleChat. rewrite Hpost. simpl.
  destruct (json_Decode (Body r)) as [req|err]; [|reflexivity].
  destruct (Validate req) as [err|]; [reflexivity|].
  simpl. destruct (svc _ _) as [response|err]; [|reflexivity].
  simpl. rewrite GetResponseContent_value. reflexivity.
Qed.

Lemma HandleChat_wrong_method (w : ResponseWriter) (r : Request) :
  Method r <> MethodPost ->
  exec (stubs logging svc) (HandleChat json_Decode w r) =
    ([ev (inl1 (Printf ("[" ++ Method r ++ "] " ++ URL r ++ " - HandleChat")))],
     Some (writeErrorResponse w "método no permitido" StatusMethodNotAllowed)).
Proof.
  intros Hm. unfold HandleChat. simpl.
  apply String.eqb_neq in Hm. rewrite Hm. reflexivity.
Qed.

End HandlerFacts.

(** ** The temperature range *)

Lemma Prim2SF_zero : Prim2SF 0%float = S754_zero false.
Proof. vm_compute. reflexivity. Qed.

Lemma Prim2SF_two : Prim2SF 2%float = S754_finite false 4503599627370496 (-51).
Proof. vm_compute. reflexivity. Qed.

Lemma compare_cont_flip (m p : positive) :
  Pos.compare_cont Eq p m = CompOpp (Pos.compare_cont Eq m p).
Proof. exact (Pos.compare_antisym m p). Qed.

(** For a number (not a NaN), the two comparisons of [Validate] reject it
    exactly when it is not between 0 and 2. *)
Lemma temperature_check (t : float) :
  is_nan t = false ->
  (t <? 0)%float || (2 <? t)%float = negb (within_0_2 t).
Proof.
  unfold within_0_2, is_nan. intros Hn.
  rewrite (ltb_spec t 0), (ltb_spec 2 t), (leb_spec 0 t), (leb_spec t 2).
  rewrite (FloatAxioms.eqb_spec t t) in Hn.
  rewrite Prim2SF_zero, Prim2SF_two.
  unfold SFltb, SFleb, SFeqb in *.
  destruct (Prim2SF t) as [sg|sg| |sg m e]; cbn [SFcompare negb] in *; try discriminate.
  - reflexivity.
  - destruct sg; reflexivity.
  - destruct sg; cbn [negb andb orb]; try reflexivity.
    rewrite (Z.compare_antisym e (-51)).
    destruct (e ?= -51)%Z; cbn [CompOpp negb andb orb]; try reflexivity.
    rewrite (compare_cont_flip m 4503599627370496).
    destruct (Pos.compare_cont Eq m 4503599627370496); reflexivity.
Qed.

Section ValidateRange.
Import httpInfra.

Lemma Validate_rejects_iff (r : ChatRequest) :
  (forall t, Temperature r = Some t -> is_nan t = false) ->
  Validate r <> None <->
    Message r = ""
    \/ (exists t, Temperature r = Some t /\ within_0_2 t = false)
    \/ (MaxTokens r < 0)%Z.
Proof.
  intros Hnan. unfold Validate.
  destruct (String.eqb_spec (Message r) "") as [He|He].
  { split; [intros _; left; exact He | discriminate]. }
  destruct (Temperature r) as [t|] eqn:Et.
  - rewrite (temperature_check t (Hnan t eq_refl)).
    destruct (within_0_2 t) eqn:Ew; simpl.
    + destruct (Z.ltb_spec (MaxTokens r) 0).
      * split; [intros _; right; right; assumption | discriminate].
      * split; [congruence|].
        intros [H'|[[t' [Ht' Hw']]|H']]; [congruence| |lia].
        injection Ht' as <-. congruence.
    + split; [intros _; right; left; exists t; split; [reflexivity|exact Ew]
             | discriminate].
  - destruct (Z.ltb_spec (MaxTokens r) 0).
    + split; [intros _; right; right; assumption | discriminate].
    + split; [congruence|].
      intros [H'|[[t' [Ht' _]]|H']]; [congruence|discriminate|lia].
Qed.

End ValidateRange.

(** ** The assembled endpoint *)

Section Assembly.
Import domain.

Lemma serviceOver_SendMessage (s : application.ChatServiceImpl)
      (gateway : Stub GroqRepository) (message model : string) :
  message <> "" -> chosenModel s model <> "" ->
  serviceOver s gateway _ (SendMessage message model)
  = afterCompletion
      (gateway _ (CreateChatCompletion
                    (NewChatRequest (chosenModel s model)
                                    [NewChatMessage "user" message]))).
Proof.
  intros Hm Hc. unfold serviceOver, answered, outcome. simpl.
  rewrite (SendMessage_exec s message model gateway Hm Hc). reflexivity.
Qed.

Lemma serviceOver_fails (s : application.ChatServiceImpl)
      (gateway : Stub GroqRepository) (message model : string) :
  (forall request, exists e, gateway _ (CreateChatCompletion request) = Err e) ->
  exists e, serviceOver s gateway _ (SendMessage message model) = Err e.
Proof.
  intros Hg.
  destruct (String.eqb_spec message "") as [->|Hm]; [eexists; reflexivity|].
  destruct (String.eqb_spec (chosenModel s model) "") as [Hc|Hc].
  - unfold serviceOver, answered, outcome. simpl.
    rewrite (SendMessage_no_model s message model Hm Hc). eexists; reflexivity.
  - rewrite (serviceOver_SendMessage s gateway message model Hm Hc).
    destruct (Hg (NewChatRequest (chosenModel s model)
                                 [NewChatMessage "user" message])) as [e ->].
    eexists; reflexivity.
Qed.

Lemma repository_rejects (lib : groq.Library) (c : groq.GroqClient)
      (status : Z) (body : Result string) (request : ChatRequest) :
  (status < 200 \/ 300 <= status)%Z ->
  exists e,
    repositoryOver lib c
      (replying (Ok {| nethttp.StatusCode := status; nethttp.RespBody := body |}))
      _ (CreateChatCompletion request) = Err e.
Proof.
  intros Hs. unfold repositoryOver, answered, outcome. simpl.
  unfold groq.CreateChatCompletion.
  destruct (groq.json_Marshal lib request) as [data|err]; [|eexists; reflexivity].
  rewrite exec_bind. unfold groq.doRequest.
  destruct (groq.http_NewRequestWithContext lib _ _ _) as [req|err];
    [|eexists; reflexivity].
  simpl. destruct body as [b|err]; [|eexists; reflexivity].
  rewrite (range_outside status Hs). eexists; reflexivity.
Qed.

Lemma chatOverRepository_exec
      (json_Decode : option string -> Result httpInfra.ChatRequest)
      (s : application.ChatServiceImpl) (gateway : Stub GroqRepository)
      (w : httpInfra.ResponseWriter) (r : nethttp.Request) :
  exec (stubs logging gateway) (main.chatOverRepository json_Decode s w r) =
    (flat_map (fun e => trace (stubs logging gateway)
                              (onRight (application.service s) (projT1 e) (projT2 e)))
              (fst (exec (stubs logging (serviceOver s gateway))
                         (httpInfra.HandleChat json_Decode w r))),
     snd (exec (stubs logging (serviceOver s gateway))
               (httpInfra.HandleChat json_Decode w r))).
Proof.
  unfold main.chatOverRepository.
  rewrite (exec_interp _ _ (stubs logging noService))
    by (apply onRight_total; apply service_total).
  unfold trace, outcome, serviceOver.
  rewrite (exec_ext _ (stubs logging (answered (application.service s) gateway noService)))
    by (apply answered_onRight).
  reflexivity.
Qed.

Lemma chatEndpoint_outcome
      (json_Decode : option string -> Result httpInfra.ChatRequest)
      (lib : groq.Library) (s : application.ChatServiceImpl) (c : groq.GroqClient)
      (upstream : Stub nethttp.Client)
      (w : httpInfra.ResponseWriter) (r : nethttp.Request) :
  outcome (stubs logging upstream) (main.chatEndpoint json_Decode lib s c w r)
  = outcome (stubs logging (serviceOver s (repositoryOver lib c upstream)))
            (httpInfra.HandleChat json_Decode w r).
Proof.
  unfold main.chatEndpoint, outcome at 1.
  rewrite (exec_interp _ _ (stubs logging noRepository))
    by (apply onRight_total; apply repository_total).
  cbn [snd]. unfold outcome at 1.
  rewrite (exec_ext _ (stubs logging (repositoryOver lib c upstream)))
    by (apply answered_onRight).
  rewrite chatOverRepository_exec. reflexivity.
Qed.

End Assembly.

(** ** A text without digits shows no status code *)

Lemma fmt_d_head (n : Z) :
  exists ch rest, fmt_d n = String ch rest /\ startsNumber ch = true.
Proof.
  unfold fmt_d. destruct n as [|p|p]; simpl.
  - eexists; eexists; split; reflexivity.
  - unfold NilZero.string_of_uint.
    destruct (Pos.to_uint p); simpl; eexists; eexists; split; reflexivity.
  - eexists; eexists; split; reflexivity.
Qed.

Lemma Contains_needs_head (text : string) (ch : ascii) (rest : string) :
  startsNumber ch = true ->
  forallb (fun c => negb (startsNumber c)) (list_ascii_of_string text) = true ->
  Contains text (String ch rest) = false.
Proof.
  intros Hch. induction text as [|c text IH]; simpl; intros Hall.
  - reflexivity.
  - apply andb_true_iff in Hall. destruct Hall as [Hc Hall].
    rewrite (IH Hall). destruct (ascii_dec ch c) as [->|_]; [|reflexivity].
    rewrite Hch in Hc. discriminate.
Qed.

Lemma genericText_shows_no_status (status : Z) :
  Contains genericText (fmt_d status) = false.
Proof.
  destruct (fmt_d_head status) as [ch [rest [-> Hch]]].
  apply Contains_needs_head; [exact Hch | reflexivity].
Qed.

(** ** Client errors and service errors at the handler *)

Section HandlerClaims.
Import nethttp httpInfra.

(** C4. On a POST, [HandleChat] answers 400 exactly when the body does not
    decode, or the decoded message is empty, or a temperature is present and
    not between 0 and 2, or max_tokens is negative; and whenever it answers
    400 the chat service has not been called.  Both the temperature and the
    max_tokens checks are thus applied on this one path.  (A decoded JSON
    number is never a NaN.) *)
Theorem HandleChat_bad_request
        (json_Decode : option string -> Result ChatRequest)
        (svc : Stub domain.ChatService) (r : Request) :
  Method r = MethodPost ->
  (forall req t, json_Decode (Body r) = Ok req ->
                 Temperature req = Some t -> is_nan t = false) ->
  exists w',
    outcome (stubs logging svc) (HandleChat json_Decode NewRecorder r) = Some w'
    /\ (WCode w' = StatusBadRequest <->
          (exists err, json_Decode (Body r) = Err err)
          \/ (exists req, json_Decode (Body r) = Ok req
                /\ (Message req = ""
                    \/ (exists t, Temperature req = Some t /\ within_0_2 t = false)
                    \/ (MaxTokens req < 0)%Z)))
    /\ (WCode w' = StatusBadRequest ->
        portCalls (trace (stubs logging svc) (HandleChat json_Decode NewRecorder r)) = []).
Proof.
  intros Hpost Hnan. unfold outcome, trace.
  rewrite (HandleChat_exec json_Decode svc NewRecorder r Hpost).
  destruct (json_Decode (Body r)) as [req|err] eqn:Ed.
  - pose proof (Validate_rejects_iff req (fun t => Hnan req t eq_refl)) as Hv.
    destruct (Validate req) as [verr|] eqn:Ev.
    + eexists. split; [reflexivity|]. split; [|reflexivity].
      split; [|reflexivity].
      intros _. right. exists req. split; [reflexivity|].
      apply Hv. discriminate.
    + destruct (svc _ _) as [response|err]; eexists; (split; [reflexivity|]);
        (split; [|discriminate]);
        (split; [discriminate|]);
        (intros [[err' H]|[req' [H Hbad]]]; [discriminate|]);
        injection H as <-; apply Hv in Hbad; congruence.
  - eexists. split; [reflexivity|]. split; [|reflexivity].
    split; [|reflexivity]. intros _. left. exists err. reflexivity.
Qed.

(** C5. Whenever the chat service returns an error to [HandleChat], the
    client receives status 500 and one fixed body, the same for every error;
    the cause goes to the log alone.  In particular, whatever status outside
    200..299 and whatever body the upstream sent, the assembled endpoint
    answers with that fixed response: nothing in it is taken from the
    upstream's reply.  Its error text has no digit, so it spells no status
    code; its code member is the constant 500. *)
Theorem HandleChat_hides_service_errors
        (json_Decode : option string -> Result ChatRequest)
        (r : Request) (req : ChatRequest) :
  Method r = MethodPost ->
  json_Decode (Body r) = Ok req ->
  Validate req = None ->
  (forall (svc : Stub domain.ChatService) (e : error),
      svc _ (domain.SendMessage (Message req) (Model req)) = Err e ->
      outcome (stubs logging svc) (HandleChat json_Decode NewRecorder r)
        = Some genericFailure
      /\ logLines (trace (stubs logging svc) (HandleChat json_Decode NewRecorder r))
         = [ "[" ++ Method r ++ "] " ++ URL r ++ " - HandleChat";
             "Error en servicio: " ++ Error e ])
  /\ (forall (svc svc' : Stub domain.ChatService) (e e' : error),
         svc _ (domain.SendMessage (Message req) (Model req)) = Err e ->
         svc' _ (domain.SendMessage (Message req) (Model req)) = Err e' ->
         outcome (stubs logging svc) (HandleChat json_Decode NewRecorder r)
         = outcome (stubs logging svc') (HandleChat json_Decode NewRecorder r))
  /\ (forall (lib : groq.Library) (s : application.ChatServiceImpl)
             (c : groq.GroqClient) (status : Z) (body : Result string),
         (status < 200 \/ 300 <= status)%Z ->
         outcome (stubs logging (replying (Ok {| StatusCode := status; RespBody := body |})))
                 (main.chatEndpoint json_Decode lib s c NewRecorder r)
         = Some genericFailure)
  /\ (forall status : Z, Contains genericText (fmt_d status) = false).
Proof.
  intros Hpost Hd Hv. split; [|split; [|split]]; [| | |apply genericText_shows_no_status].
  - intros svc e He. unfold outcome, trace.
    rewrite (HandleChat_exec json_Decode svc NewRecorder r Hpost), Hd, Hv, He.
    split; reflexivity.
  - intros svc svc' e e' He He'. unfold outcome.
    rewrite (HandleChat_exec json_Decode svc NewRecorder r Hpost).
    rewrite (HandleChat_exec json_Decode svc' NewRecorder r Hpost).
    rewrite Hd, Hv, He, He'. reflexivity.
  - intros lib s c status body Hs.
    rewrite chatEndpoint_outcome. unfold outcome.
    rewrite (HandleChat_exec json_Decode _ NewRecorder r Hpost), Hd, Hv.
    destruct (serviceOver_fails s
                (repositoryOver lib c
                   (replying (Ok {| StatusCode := status; RespBody := body |})))
                (Message req) (Model req)) as [e ->].
    + intros request. apply repository_rejects. exact Hs.
    + reflexivity.
Qed.

End HandlerClaims.

(** ** What reaches the repository, and what comes back to the client *)

Section EndToEnd.
Import nethttp httpInfra.

Lemma Validate_message_present (req : ChatRequest) :
  Validate req = None -> Message req <> "".
Proof.
  intros Hv He. apply Validate_empty_message in He. congruence.
Qed.

(** C8. For an accepted POST, the only chat request the service hands to
    the repository has the client's message as its single message, with role
    "user", no temperature and max_tokens 0, whatever temperature and
    max_tokens the client sent; when no model can be chosen nothing is
    handed over. *)
Theorem client_tuning_is_not_forwarded
        (json_Decode : option string -> Result ChatRequest)
        (s : application.ChatServiceImpl) (gateway : Stub domain.GroqRepository)
        (r : Request) (req : ChatRequest) :
  Method r = MethodPost ->
  json_Decode (Body r) = Ok req ->
  Validate req = None ->
  (chosenModel s (Model req) <> "" ->
   completionRequests
     (portCalls (trace (stubs logging gateway)
                       (main.chatOverRepository json_Decode s NewRecorder r)))
   = [ {| domain.Messages :=
            [ {| domain.Role := "user"; domain.Content := Message req |} ];
          domain.Model := chosenModel s (Model req);
          domain.Temperature := None;
          domain.MaxTokens := 0 |} ])
  /\ (chosenModel s (Model req) = "" ->
      completionRequests
        (portCalls (trace (stubs logging gateway)
                          (main.chatOverRepository json_Decode s NewRecorder r)))
      = []).
Proof.
  intros Hpost Hd Hv.
  pose proof (Validate_message_present req Hv) as Hm.
  split; intros Hc; unfold trace at 1; rewrite chatOverRepository_exec; cbn [fst];
    rewrite (HandleChat_exec json_Decode _ NewRecorder r Hpost), Hd, Hv.
  - rewrite (serviceOver_SendMessage s gateway _ _ Hm Hc).
    destruct (afterCompletion _);
      cbn [fst flat_map projT1 projT2 ev onRight application.service];
      unfold trace; rewrite exec_liftR;
      unfold trace; rewrite (SendMessage_exec s _ _ gateway Hm Hc); reflexivity.
  - assert (Hs : serviceOver s gateway _ (domain.SendMessage (Message req) (Model req))
                 = Err application.ErrEmptyModel).
    { unfold serviceOver, answered, outcome. simpl.
      rewrite (SendMessage_no_model s _ _ Hm Hc). reflexivity. }
    rewrite Hs. cbn [fst flat_map projT1 projT2 ev onRight application.service].
    unfold trace. rewrite exec_liftR. unfold trace.
    rewrite (SendMessage_no_model s _ _ Hm Hc). reflexivity.
Qed.

(** C1, as the code has it.  For a POST whose body decodes to a valid DTO
    with no model, a non-empty default model, and an upstream answering 2xx
    with a body that deserializes to a response with exactly one choice, the
    client receives 200 and the document
    success=true, message=(content of the choice),
    model=(the model named in the upstream's response), usage=(the upstream's
    three counters), with no error member. *)
Theorem chat_success_response
        (json_Decode : option string -> Result ChatRequest)
        (lib : groq.Library) (s : application.ChatServiceImpl) (c : groq.GroqClient)
        (r : Request) (req : ChatRequest) (data : string)
        (status : Z) (body : string)
        (response : domain.ChatResponse) (choice : domain.Choice) :
  Method r = MethodPost ->
  json_Decode (Body r) = Ok req ->
  Validate req = None ->
  Model req = "" ->
  application.defaultModel s <> "" ->
  (forall method url b,
      exists rq, groq.http_NewRequestWithContext lib method url b = Ok rq) ->
  groq.json_Marshal lib
    (domain.NewChatRequest (application.defaultModel s)
                           [domain.NewChatMessage "user" (Message req)]) = Ok data ->
  (200 <= status < 300)%Z ->
  groq.json_Unmarshal_ChatResponse lib body = Ok response ->
  domain.Choices response = [choice] ->
  outcome (stubs logging (replying (Ok {| StatusCode := status; RespBody := Ok body |})))
          (main.chatEndpoint json_Decode lib s c NewRecorder r)
  = Some {| WHeader := [("Content-Type", "application/json")];
            WCode := 200;
            WBody :=
              [ json.Object
                  [ ("success", json.Bool true);
                    ("message", json.Str (domain.Content (domain.Message choice)));
                    ("model", json.Str (domain.ChatResponse_Model response));
                    ("usage",
                     json.Object
                       [ ("prompt_tokens",
                          json.Number (domain.PromptTokens (domain.ChatResponse_Usage response)));
                         ("completion_tokens",
                          json.Number (domain.CompletionTokens (domain.ChatResponse_Usage response)));
                         ("total_tokens",
                          json.Number (domain.TotalTokens (domain.ChatResponse_Usage response))) ]) ] ] |}.
Proof.
  intros Hpost Hd Hv Hmodel Hdef Hnew Hmarshal Hs Hu Hch.
  pose proof (Validate_message_present req Hv) as Hm.
  assert (Hc : chosenModel s (Model req) <> "").
  { unfold chosenModel. rewrite Hmodel. exact Hdef. }
  assert (Hcm : chosenModel s (Model req) = application.defaultModel s).
  { unfold chosenModel. rewrite Hmodel. reflexivity. }
  rewrite chatEndpoint_outcome. unfold outcome.
  rewrite (HandleChat_exec json_Decode _ NewRecorder r Hpost), Hd, Hv.
  rewrite (serviceOver_SendMessage s _ _ _ Hm Hc), Hcm.
  assert (Hr : repositoryOver lib c
                 (replying (Ok {| StatusCode := status; RespBody := Ok body |})) _
                 (domain.CreateChatCompletion
                    (domain.NewChatRequest (application.defaultModel s)
                       [domain.NewChatMessage "user" (Message req)]))
               = Ok response).
  { unfold repositoryOver, answered. simpl. unfold groq.CreateChatCompletion.
    rewrite Hmarshal.
    erewrite outcome_bind by (apply doRequest_accepted; assumption).
    cbn beta iota. rewrite Hu. reflexivity. }
  rewrite Hr. unfold afterCompletion. rewrite Hch. cbn [snd].
  unfold firstContent. rewrite Hch. reflexivity.
Qed.

(** C1 as claimed fails: with the default model configured and an upstream
    that returns the one choice and the usage but names no model, the reply
    is 200 with message "hello" and the right usage, and its model member is
    the empty string, not the default model. *)
Lemma reply_model_is_not_the_default :
  exists w doc,
    outcome (stubs logging (replying (Ok {| StatusCode := 200; RespBody := Ok "reply-json" |})))
            (main.chatEndpoint (fixture.decodeTo fixture.hi) fixture.library
                               fixture.chatService fixture.groqClient
                               NewRecorder fixture.post) = Some w
    /\ WCode w = 200%Z
    /\ WBody w = [doc]
    /\ member "success" doc = Some (json.Bool true)
    /\ member "message" doc = Some (json.Str "hello")
    /\ member "usage" doc
       = Some (json.Object [ ("prompt_tokens", json.Number 5);
                             ("completion_tokens", json.Number 3);
                             ("total_tokens", json.Number 8) ])
    /\ member "model" doc = Some (json.Str "")
    /\ member "model" doc
       <> Some (json.Str (application.defaultModel fixture.chatService)).
Proof.
  eexists. eexists. split; [vm_compute; reflexivity|].
  repeat split; try reflexivity. discriminate.
Qed.

End EndToEnd.

(** ** The statements above, at the stubbed deployment *)

Section Witnesses.
Import nethttp httpInfra.

Lemma SendMessage_default_model_witness :
  "hi" <> ""
  /\ application.defaultModel fixture.chatService <> ""
  /\ exists request,
       trace fixture.gateway (application.SendMessage fixture.chatService "hi" "")
         = [ev (domain.CreateChatCompletion request)]
       /\ domain.Model request = "llama-3.3-70b-versatile".
Proof.
  assert (Hm : "hi" <> "") by discriminate.
  assert (Hd : application.defaultModel fixture.chatService <> "") by discriminate.
  split; [exact Hm|]. split; [exact Hd|].
  exact (proj1 (SendMessage_default_model fixture.chatService "hi" fixture.gateway Hm) Hd).
Defined.

Lemma SendMessage_checks_choices_witness :
  "hi" <> ""
  /\ chosenModel fixture.chatService "" <> ""
  /\ domain.Choices fixture.completion <> []
  /\ outcome fixture.gateway (application.SendMessage fixture.chatService "hi" "")
     = Some (Ok fixture.completion).
Proof.
  assert (Hm : "hi" <> "") by discriminate.
  assert (Hc : chosenModel fixture.chatService "" <> "") by discriminate.
  assert (Hn : domain.Choices fixture.completion <> []) by discriminate.
  split; [exact Hm|]. split; [exact Hc|]. split; [exact Hn|].
  exact (proj2 (SendMessage_checks_choices fixture.chatService "hi" ""
                  fixture.gateway fixture.completion Hm Hc eq_refl) Hn).
Defined.

Lemma whitespace_message_is_forwarded_witness :
  " " <> ""
  /\ onlyWhitespace " " = true
  /\ Validate {| Message := " "; Model := ""; Temperature := None; MaxTokens := 0 |} = None
  /\ completionRequests
       (trace fixture.gateway (application.SendMessage fixture.chatService " " ""))
     = [ {| domain.Messages := [ {| domain.Role := "user"; domain.Content := " " |} ];
            domain.Model := "llama-3.3-70b-versatile";
            domain.Temperature := None; domain.MaxTokens := 0 |} ].
Proof.
  assert (Hm : " " <> "") by discriminate.
  assert (Hw : onlyWhitespace " " = true) by reflexivity.
  assert (Hk : (0 <= 0)%Z) by lia.
  assert (Hc : chosenModel fixture.chatService "" <> "") by discriminate.
  split; [exact Hm|]. split; [exact Hw|].
  exact (proj2 (proj2 (whitespace_message_is_forwarded fixture.chatService " " "" 0
                         fixture.gateway Hm Hw Hk Hc))).
Defined.

Lemma client_reports_upstream_failures_witness :
  (429 < 200 \/ 300 <= 429)%Z
  /\ outcome (replying (Ok {| StatusCode := 429; RespBody := Ok "rate limit exceeded" |}))
             (groq.CreateChatCompletion fixture.strictLibrary fixture.groqClient
                (domain.NewChatRequest "llama-3.3-70b-versatile"
                   [domain.NewChatMessage "user" "hi"]))
     = Some (Err (Errorf_w "error en la petición HTTP: "
                           (statusError 429 "rate limit exceeded")))
  /\ Error (Errorf_w "error en la petición HTTP: " (statusError 429 "rate limit exceeded"))
     = "error en la petición HTTP: API retornó status 429: rate limit exceeded".
Proof.
  assert (Hs : (429 < 200 \/ 300 <= 429)%Z) by (right; lia).
  assert (Hnew : forall method url b,
             exists req, groq.http_NewRequestWithContext fixture.strictLibrary method url b
                         = Ok req)
    by (intros method url b; eexists; reflexivity).
  split; [exact Hs|].
  destruct (client_reports_upstream_failures fixture.strictLibrary fixture.groqClient
              (domain.NewChatRequest "llama-3.3-70b-versatile"
                 [domain.NewChatMessage "user" "hi"])
              "request-json" 429 "rate limit exceeded" Hnew eq_refl)
    as [Hrej _].
  destruct (Hrej Hs) as [Hchat _].
  split; [exact Hchat | reflexivity].
Defined.

Lemma HandleChat_bad_request_witness :
  Method fixture.post = MethodPost
  /\ exists w',
       outcome (stubs logging fixture.failing)
               (HandleChat (fixture.decodeTo fixture.hot) NewRecorder fixture.post) = Some w'
       /\ WCode w' = StatusBadRequest
       /\ portCalls (trace (stubs logging fixture.failing)
                           (HandleChat (fixture.decodeTo fixture.hot) NewRecorder fixture.post))
          = [].
Proof.
  assert (Hpost : Method fixture.post = MethodPost) by reflexivity.
  assert (Hnan : forall req t,
             fixture.decodeTo fixture.hot (Body fixture.post) = Ok req ->
             Temperature req = Some t -> is_nan t = false).
  { intros req t Hreq Ht. injection Hreq as <-. injection Ht as <-. reflexivity. }
  split; [exact Hpost|].
  destruct (HandleChat_bad_request (fixture.decodeTo fixture.hot) fixture.failing
              fixture.post Hpost Hnan) as [w' [Hout [Hiff Hcalls]]].
  assert (Hcode : WCode w' = StatusBadRequest).
  { apply Hiff. right. exists fixture.hot. split; [reflexivity|].
    right. left. exists 2.5%float. split; reflexivity. }
  exists w'. split; [exact Hout|]. split; [exact Hcode | exact (Hcalls Hcode)].
Defined.

Lemma HandleChat_hides_service_errors_witness :
  Method fixture.post = MethodPost
  /\ Validate fixture.hi = None
  /\ outcome (stubs logging fixture.failing)
             (HandleChat (fixture.decodeTo fixture.hi) NewRecorder fixture.post)
     = Some genericFailure
  /\ outcome (stubs logging
                (replying (Ok {| StatusCode := 429;
                                 RespBody := Ok "rate limit exceeded" |})))
             (main.chatEndpoint (fixture.decodeTo fixture.hi) fixture.library
                                fixture.chatService fixture.groqClient
                                NewRecorder fixture.post)
     = Some genericFailure
  /\ Contains genericText "429" = false
  /\ Contains genericText "rate limit exceeded" = false.
Proof.
  assert (Hpost : Method fixture.post = MethodPost) by reflexivity.
  assert (Hv : Validate fixture.hi = None) by reflexivity.
  split; [exact Hpost|]. split; [exact Hv|].
  refine ((fun H => conj (proj1 H) (conj (proj2 H) (conj eq_refl eq_refl))) _).
  destruct (HandleChat_hides_service_errors (fixture.decodeTo fixture.hi) fixture.post
              fixture.hi Hpost eq_refl Hv) as [Hsvc [_ [Hstack _]]].
  split.
  - exact (proj1 (Hsvc fixture.failing (statusError 429 "rate limit exceeded") eq_refl)).
  - apply Hstack. right. lia.
Defined.

Lemma client_tuning_is_not_forwarded_witness :
  Method fixture.post = MethodPost
  /\ Validate fixture.tuned = None
  /\ chosenModel fixture.chatService (Model fixture.tuned) <> ""
  /\ completionRequests
       (portCalls (trace (stubs logging fixture.gateway)
                         (main.chatOverRepository (fixture.decodeTo fixture.tuned)
                            fixture.chatService NewRecorder fixture.post)))
     = [ {| domain.Messages := [ {| domain.Role := "user"; domain.Content := "hi" |} ];
            domain.Model := "llama-3.3-70b-versatile";
            domain.Temperature := None;
            domain.MaxTokens := 0 |} ].
Proof.
  assert (Hpost : Method fixture.post = MethodPost) by reflexivity.
  assert (Hv : Validate fixture.tuned = None) by (vm_compute; reflexivity).
  assert (Hc : chosenModel fixture.chatService (Model fixture.tuned) <> "")
    by discriminate.
  split; [exact Hpost|]. split; [exact Hv|]. split; [exact Hc|].
  exact (proj1 (client_tuning_is_not_forwarded (fixture.decodeTo fixture.tuned)
                  fixture.chatService fixture.gateway fixture.post fixture.tuned
                  Hpost eq_refl Hv) Hc).
Defined.

Lemma chat_success_response_witness :
  Method fixture.post = MethodPost
  /\ Validate fixture.hi = None
  /\ (200 <= 200 < 300)%Z
  /\ outcome (stubs logging (replying (Ok {| StatusCode := 200;
                                             RespBody := Ok "reply-json" |})))
             (main.chatEndpoint (fixture.decodeTo fixture.hi) fixture.library
                                fixture.chatService fixture.groqClient
                                NewRecorder fixture.post)
     = Some {| WHeader := [("Content-Type", "application/json")];
               WCode := 200;
               WBody :=
                 [ json.Object
                     [ ("success", json.Bool true);
                       ("message", json.Str "hello");
                       ("model", json.Str "");
                       ("usage",
                        json.Object [ ("prompt_tokens", json.Number 5);
                                      ("completion_tokens", json.Number 3);
                                      ("total_tokens", json.Number 8) ]) ] ] |}.
Proof.
  assert (Hpost : Method fixture.post = MethodPost) by reflexivity.
  assert (Hv : Validate fixture.hi = None) by reflexivity.
  assert (Hs : (200 <= 200 < 300)%Z) by lia.
  assert (Hdef : application.defaultModel fixture.chatService <> "") by discriminate.
  assert (Hnew : forall method url b,
             exists rq, groq.http_NewRequestWithContext fixture.library method url b
                        = Ok rq)
    by (intros method url b; eexists; reflexivity).
  split; [exact Hpost|]. split; [exact Hv|]. split; [exact Hs|].
  exact (chat_success_response (fixture.decodeTo fixture.hi) fixture.library
           fixture.chatService fixture.groqClient fixture.post fixture.hi
           "request-json" 200 "reply-json" fixture.completion
           {| domain.Index := 0;
              domain.Message := {| domain.Role := "assistant"; domain.Content := "hello" |};
              domain.FinishReason := "stop" |}
           Hpost eq_refl Hv eq_refl Hdef Hnew eq_refl Hs eq_refl eq_refl).
Defined.

End Witnesses.

(* ====================================================================== *)
(** * Further properties of the service and the client *)
(* ====================================================================== *)

Section ServiceMore.
Import domain application.

(** X1. A model named by the caller is the one requested, whatever default
    is configured (an empty one included): the single repository call
    carries exactly that model and the message as one user message. *)
Theorem SendMessage_explicit_model (s : ChatServiceImpl) (message model : string)
        (gateway : Stub GroqRepository) :
  message <> "" -> model <> "" ->
  trace gateway (SendMessage s message model)
  = [ev (CreateChatCompletion
           {| Messages := [ {| Role := "user"; Content := message |} ];
              Model := model; Temperature := None; MaxTokens := 0 |})].
Proof.
  intros Hm Hmodel.
  assert (Hc : chosenModel s model = model).
  { unfold chosenModel. rewrite (eqb_empty_false _ Hmodel). reflexivity. }
  unfold trace. rewrite SendMessage_exec by (try rewrite Hc; assumption).
  rewrite Hc. reflexivity.
Qed.

(** X2. [SendMessage] never asks the repository twice: whatever the
    arguments and whatever the repository answers (a failure included), the
    run contains at most one repository operation, and it is never
    [ListModels]. *)
Theorem SendMessage_single_attempt (s : ChatServiceImpl) (message model : string)
        (gateway : Stub GroqRepository) :
  (length (trace gateway (SendMessage s message model)) <= 1)%nat
  /\ length (completionRequests (trace gateway (SendMessage s message model)))
     = length (trace gateway (SendMessage s message model)).
Proof.
  destruct (String.eqb_spec message "") as [->|Hm]; [split; [simpl; lia | reflexivity]|].
  destruct (String.eqb_spec (chosenModel s model) "") as [Hc|Hc].
  - rewrite (SendMessage_no_model s message model Hm Hc). split; [simpl; lia | reflexivity].
  - unfold trace. rewrite (SendMessage_exec s message model gateway Hm Hc).
    split; [simpl; lia | reflexivity].
Qed.

(** X3. A repository failure comes back wrapped, not replaced: the message
    is the service's prefix followed by the cause's message, and the cause
    itself is what [errors.Unwrap] yields. *)
Theorem SendMessage_wraps_cause (s : ChatServiceImpl) (message model : string)
        (gateway : Stub GroqRepository) (cause : error) :
  message <> "" -> chosenModel s model <> "" ->
  gateway _ (CreateChatCompletion
               (NewChatRequest (chosenModel s model) [NewChatMessage "user" message]))
    = Err cause ->
  exists e,
    outcome gateway (SendMessage s message model) = Some (Err e)
    /\ Error e = "error al obtener respuesta de Groq: " ++ Error cause
    /\ Unwrap e = Some cause.
Proof.
  intros Hm Hc Hg. unfold outcome. rewrite SendMessage_exec by assumption.
  simpl. rewrite Hg. eexists. split; [reflexivity|]. split; reflexivity.
Qed.

(** X4. Whenever [SendMessage] hands back a response, the message was not
    empty, the response is the one the repository gave for the request
    issued, and it has at least one choice. *)
Theorem SendMessage_response_has_choice (s : ChatServiceImpl) (message model : string)
        (gateway : Stub GroqRepository) (response : ChatResponse) :
  outcome gateway (SendMessage s message model) = Some (Ok response) ->
  message <> ""
  /\ chosenModel s model <> ""
  /\ gateway _ (CreateChatCompletion
                  (NewChatRequest (chosenModel s model) [NewChatMessage "user" message]))
     = Ok response
  /\ Choices response <> [].
Proof.
  intros H.
  destruct (String.eqb_spec message "") as [->|Hm]; [discriminate|].
  destruct (String.eqb_spec (chosenModel s model) "") as [Hc|Hc].
  { rewrite (SendMessage_no_model s message model Hm Hc) in H. discriminate. }
  unfold outcome in H. rewrite (SendMessage_exec s message model gateway Hm Hc) in H.
  simpl in H. unfold afterCompletion in H.
  destruct (gateway _ _) as [resp|err]; [|discriminate].
  destruct (Choices resp) eqn:Ech; [discriminate|].
  injection H as <-. repeat split; try assumption. rewrite Ech. discriminate.
Qed.

End ServiceMore.

Section ClientMore.
Import domain nethttp groq.

Lemma Header_Get_Set (h : Header) (key value : string) :
  Header_Get (Header_Set h key value) key = value.
Proof. unfold Header_Set. simpl. rewrite String.eqb_refl. reflexivity. Qed.

Lemma Header_Get_Set_other (h : Header) (key value key' : string) :
  key <> key' ->
  Header_Get (Header_Set h key value) key' = Header_Get h key'.
Proof.
  intros Hk. unfold Header_Set. simpl.
  apply String.eqb_neq in Hk. rewrite Hk.
  induction h as [|[k v] h IH]; simpl; [reflexivity|].
  destruct (String.eqb_spec k key) as [->|Hkk]; simpl.
  - rewrite Hk. exact IH.
  - destruct (k =? key'); [reflexivity | exact IH].
Qed.

(** X5. The one request [CreateChatCompletion] sends is the request the
    library built for POST, the base URL followed by /chat/completions and
    the marshalled chat request, with Content-Type set to application/json
    and Authorization set to "Bearer " and the API key, whatever headers the
    built request already had. *)
Theorem CreateChatCompletion_request (lib : Library) (c : GroqClient)
        (request : ChatRequest) (data : string) (built : Request)
        (upstream : Stub Client) :
  json_Marshal lib request = Ok data ->
  http_NewRequestWithContext lib MethodPost (baseURL c ++ "/chat/completions") (Some data)
    = Ok built ->
  exists sent,
    trace upstream (CreateChatCompletion lib c request) = [ev (Do sent)]
    /\ Method sent = Method built
    /\ URL sent = URL built
    /\ Body sent = Body built
    /\ Header_Get (ReqHeader sent) "Content-Type" = "application/json"
    /\ Header_Get (ReqHeader sent) "Authorization" = "Bearer " ++ apiKey c
    /\ forall key, key <> "Content-Type" -> key <> "Authorization" ->
                   Header_Get (ReqHeader sent) key = Header_Get (ReqHeader built) key.
Proof.
  intros Hmarshal Hbuilt. unfold trace, CreateChatCompletion. rewrite Hmarshal.
  rewrite exec_bind. unfold doRequest.
  change (baseURL c ++ ChatCompletionsEndpoint) with (baseURL c ++ "/chat/completions").
  rewrite Hbuilt. cbn [exec bind call].
  match goal with
  | |- context [upstream _ (Do ?rq)] => exists rq
  end.
  split.
  { destruct (upstream _ _) as [resp|err]; [|reflexivity].
    destruct (RespBody resp) as [body|err]; [|reflexivity].
    destruct (_ || _); [reflexivity|].
    simpl. destruct (json_Unmarshal_ChatResponse lib body); reflexivity. }
  cbn [Method URL Body ReqHeader].
  split; [reflexivity|]. split; [reflexivity|]. split; [reflexivity|].
  split; [rewrite Header_Get_Set_other by discriminate; apply Header_Get_Set|].
  split; [apply Header_Get_Set|].
  intros key H1 H2. unfold AuthorizationHeader.
  rewrite !Header_Get_Set_other by congruence. reflexivity.
Qed.

(** X6. The client makes a single attempt: [CreateChatCompletion] and
    [ListModels] perform at most one outbound operation whatever the
    upstream does, and none at all when the chat request cannot be marshalled
    or the outbound request cannot be built. *)
Theorem client_single_attempt (lib : Library) (c : GroqClient)
        (request : ChatRequest) (upstream : Stub Client) :
  (length (trace upstream (CreateChatCompletion lib c request)) <= 1)%nat
  /\ (length (trace upstream (ListModels lib c)) <= 1)%nat
  /\ ((forall data, json_Marshal lib request <> Ok data) ->
      trace upstream (CreateChatCompletion lib c request) = [])
  /\ ((forall method url body rq,
          http_NewRequestWithContext lib method url body <> Ok rq) ->
      trace upstream (CreateChatCompletion lib c request) = []
      /\ trace upstream (ListModels lib c) = []).
Proof.
  assert (Hdo : forall method url body,
             (length (trace upstream (doRequest lib c method url body)) <= 1)%nat
             /\ ((forall rq, http_NewRequestWithContext lib method url body <> Ok rq) ->
                 trace upstream (doRequest lib c method url body) = [])).
  { intros method url body. unfold trace, doRequest.
    destruct (http_NewRequestWithContext lib method url body) as [rq|err].
    - split; [|intros H; exfalso; exact (H rq eq_refl)].
      cbn [exec bind call].
      destruct (upstream _ _) as [resp|err]; [|simpl; lia].
      destruct (RespBody resp) as [b|err]; [|simpl; lia].
      destruct (_ || _); simpl; lia.
    - split; [simpl; lia | reflexivity]. }
  assert (Hchat : forall data,
             json_Marshal lib request = Ok data ->
             trace upstream (CreateChatCompletion lib c request)
             = trace upstream (doRequest lib c MethodPost
                                 (baseURL c ++ ChatCompletionsEndpoint) (Some data))).
  { intros data Hm. unfold trace, CreateChatCompletion. rewrite Hm, exec_bind.
    destruct (exec upstream (doRequest lib c _ _ _)) as [t [[body|err]|]]; simpl;
      try (rewrite app_nil_r; reflexivity); try reflexivity.
    destruct (json_Unmarshal_ChatResponse lib body); simpl; rewrite app_nil_r; reflexivity. }
  assert (Hlist : trace upstream (ListModels lib c)
                  = trace upstream (doRequest lib c MethodGet
                                      (baseURL c ++ ModelsEndpoint) None)).
  { unfold trace, ListModels. rewrite exec_bind.
    destruct (exec upstream (doRequest lib c _ _ _)) as [t [[body|err]|]]; simpl;
      try (rewrite app_nil_r; reflexivity); try reflexivity.
    destruct (json_Unmarshal_ModelsResponse lib body); simpl; rewrite app_nil_r; reflexivity. }
  split; [|split; [|split]].
  - destruct (json_Marshal lib request) as [data|err] eqn:Em.
    + rewrite (Hchat data eq_refl). apply Hdo.
    + unfold trace, CreateChatCompletion. rewrite Em. simpl. lia.
  - rewrite Hlist. apply Hdo.
  - intros Hno. unfold trace, CreateChatCompletion.
    destruct (json_Marshal lib request) as [data|err] eqn:Em; [|reflexivity].
    exfalso. exact (Hno data eq_refl).
  - intros Hno. split.
    + destruct (json_Marshal lib request) as [data|err] eqn:Em.
      * rewrite (Hchat data eq_refl). apply Hdo. intros rq. apply Hno.
      * unfold trace, CreateChatCompletion. rewrite Em. reflexivity.
    + rewrite Hlist. apply Hdo. intros rq. apply Hno.
Qed.

End ClientMore.

Section ClientOutcomes.
Import domain nethttp groq.

(** X7. When the exchange itself fails, or the reply's body cannot be read,
    [CreateChatCompletion] reports it with the cause kept two wraps down.  A
    body that cannot be read is reported as such whatever the status line
    said: the status is looked at only after the body has been read. *)
Theorem client_transport_failures (lib : Library) (c : GroqClient)
        (request : ChatRequest) (data : string) (cause : error) (status : Z) :
  (forall method url b, exists rq, http_NewRequestWithContext lib method url b = Ok rq) ->
  json_Marshal lib request = Ok data ->
  (exists e,
      outcome (replying (Err cause)) (CreateChatCompletion lib c request) = Some (Err e)
      /\ Error e = "error en la petición HTTP: error al ejecutar request: " ++ Error cause
      /\ match Unwrap e with Some e' => Unwrap e' | None => None end = Some cause)
  /\ (exists e,
         outcome (replying (Ok {| StatusCode := status; RespBody := Err cause |}))
                 (CreateChatCompletion lib c request) = Some (Err e)
         /\ Error e = "error en la petición HTTP: error al leer respuesta: " ++ Error cause
         /\ match Unwrap e with Some e' => Unwrap e' | None => None end = Some cause).
Proof.
  intros Hnew Hmarshal. unfold outcome, CreateChatCompletion. rewrite Hmarshal.
  rewrite !exec_bind. unfold doRequest.
  destruct (Hnew MethodPost (baseURL c ++ ChatCompletionsEndpoint) (Some data)) as [rq ->].
  split; eexists; (split; [reflexivity|]); split; reflexivity.
Qed.

(** X8. With the request marshalled and built and the reply's body read,
    [CreateChatCompletion] returns a response exactly when the status is in
    200..299 and the body deserializes, and then it is the deserialized
    value. *)
Theorem CreateChatCompletion_succeeds_iff (lib : Library) (c : GroqClient)
        (request : ChatRequest) (data : string) (status : Z) (body : string)
        (response : ChatResponse) :
  (forall method url b, exists rq, http_NewRequestWithContext lib method url b = Ok rq) ->
  json_Marshal lib request = Ok data ->
  outcome (replying (Ok {| StatusCode := status; RespBody := Ok body |}))
          (CreateChatCompletion lib c request) = Some (Ok response)
  <-> (200 <= status < 300)%Z /\ json_Unmarshal_ChatResponse lib body = Ok response.
Proof.
  intros Hnew Hmarshal.
  destruct (Z_lt_ge_dec status 200) as [Hlo|Hlo];
    [| destruct (Z_lt_ge_dec status 300) as [Hhi|Hhi]].
  - split; [|intros [? _]; lia].
    unfold CreateChatCompletion. rewrite Hmarshal.
    erewrite outcome_bind
      by (apply doRequest_rejected; [exact Hnew | left; exact Hlo]).
    discriminate.
  - unfold CreateChatCompletion. rewrite Hmarshal.
    erewrite outcome_bind
      by (apply doRequest_accepted; [exact Hnew | lia]).
    cbn beta iota.
    destruct (json_Unmarshal_ChatResponse lib body) as [resp|err]; unfold outcome; simpl.
    + split; [intros H; injection H as <-; split; [lia | reflexivity]
             | intros [_ H]; injection H as <-; reflexivity].
    + split; [discriminate | intros [_ H]; discriminate].
  - split; [|intros [? _]; lia].
    unfold CreateChatCompletion. rewrite Hmarshal.
    erewrite outcome_bind
      by (apply doRequest_rejected; [exact Hnew | right; lia]).
    discriminate.
Qed.

End ClientOutcomes.

(* ====================================================================== *)
(** * Further properties of the handlers *)
(* ====================================================================== *)

Section HandlerMore.
Import nethttp httpInfra.

Lemma HandleGetModels_exec (svc : Stub domain.ChatService)
      (w : ResponseWriter) (r : Request) :
  Method r = MethodGet ->
  exec (stubs logging svc) (HandleGetModels w r) =
    match svc _ domain.GetAvailableModels with
    | Err err =>
        ([ev (inl1 (Printf ("[" ++ Method r ++ "] " ++ URL r ++ " - HandleGetModels")));
          ev (inr1 domain.GetAvailableModels);
          ev (inl1 (Printf ("Error al obtener modelos: " ++ Error err)))],
         Some (writeErrorResponse w "error al obtener modelos" StatusInternalServerError))
    | Ok response =>
        ([ev (inl1 (Printf ("[" ++ Method r ++ "] " ++ URL r ++ " - HandleGetModels")));
          ev (inr1 domain.GetAvailableModels)],
         Some (writeJSONResponse w
                 (NewModelsResponse
                    (map (fun model => {| ModelInfo_ID := domain.Model_ID model;
                                          Name := domain.Model_ID model;
                                          ModelInfo_OwnedBy := domain.Model_OwnedBy model |})
                         (domain.Data response)))
                 StatusOK))
    end.
Proof.
  intros Hget. unfold HandleGetModels. rewrite Hget. simpl.
  destruct (svc _ _) as [response|err]; reflexivity.
Qed.

Lemma HandleGetModels_wrong_method (svc : Stub domain.ChatService)
      (w : ResponseWriter) (r : Request) :
  Method r <> MethodGet ->
  exec (stubs logging svc) (HandleGetModels w r) =
    ([ev (inl1 (Printf ("[" ++ Method r ++ "] " ++ URL r ++ " - HandleGetModels")))],
     Some (writeErrorResponse w "método no permitido" StatusMethodNotAllowed)).
Proof.
  intros Hm. unfold HandleGetModels. simpl.
  apply String.eqb_neq in Hm. rewrite Hm. reflexivity.
Qed.

Lemma map_modelDocument (models : list domain.Model_) :
  map json.Marshal
      (map (fun model => {| ModelInfo_ID := domain.Model_ID model;
                            Name := domain.Model_ID model;
                            ModelInfo_OwnedBy := domain.Model_OwnedBy model |}) models)
  = map modelDocument models.
Proof. rewrite map_map. reflexivity. Qed.

(** X9. [HandleChat] checks the method before anything else: for a method
    other than POST it answers 405 with the text "método no permitido",
    whatever the body holds and whatever the decoder would say of it, and
    the chat service is not called. *)
Theorem HandleChat_method_not_allowed
        (json_Decode : option string -> Result ChatRequest)
        (svc : Stub domain.ChatService) (r : Request) :
  Method r <> MethodPost ->
  outcome (stubs logging svc) (HandleChat json_Decode NewRecorder r)
    = Some (errorReply 405 "método no permitido")
  /\ portCalls (trace (stubs logging svc) (HandleChat json_Decode NewRecorder r)) = [].
Proof.
  intros Hm. unfold outcome, trace.
  rewrite (HandleChat_wrong_method json_Decode svc NewRecorder r Hm).
  split; reflexivity.
Qed.


End HandlerMore.

Section HandlerTexts.
Import nethttp httpInfra.

Lemma Validate_cases (req : ChatRequest) :
  (forall t, Temperature req = Some t -> is_nan t = false) ->
  Validate req =
    if Message req =? "" then Some ErrEmptyMessage else
    if match Temperature req with
       | Some t => negb (within_0_2 t)
       | None => false
       end
    then Some ErrInvalidTemperature else
    if (MaxTokens req <? 0)%Z then Some ErrInvalidMaxTokens else None.
Proof.
  intros Hnan. unfold Validate.
  destruct (Message req =? ""); [reflexivity|].
  destruct (Temperature req) as [t|]; [|reflexivity].
  rewrite (temperature_check t (Hnan t eq_refl)). reflexivity.
Qed.

(** X11. A 400 from [HandleChat] says what was wrong.  A body that does not
    decode is answered with "JSON inválido: " followed by the decoder's own
    message.  Otherwise the first failing check decides, in the order
    message, temperature, max_tokens: an empty message is reported even when
    the temperature is out of range too, and a bad temperature even when
    max_tokens is negative too. *)
Theorem HandleChat_bad_request_text
        (json_Decode : option string -> Result ChatRequest)
        (svc : Stub domain.ChatService) (r : Request) :
  Method r = MethodPost ->
  (forall req t, json_Decode (Body r) = Ok req ->
                 Temperature req = Some t -> is_nan t = false) ->
  (forall err, json_Decode (Body r) = Err err ->
     outcome (stubs logging svc) (HandleChat json_Decode NewRecorder r)
       = Some (errorReply 400 ("JSON inválido: " ++ Error err)))
  /\ (forall req, json_Decode (Body r) = Ok req ->
        (Message req = "" ->
         outcome (stubs logging svc) (HandleChat json_Decode NewRecorder r)
           = Some (errorReply 400 "el mensaje no puede estar vacío"))
        /\ (Message req <> "" ->
            (exists t, Temperature req = Some t /\ within_0_2 t = false) ->
            outcome (stubs logging svc) (HandleChat json_Decode NewRecorder r)
              = Some (errorReply 400 "la temperatura debe estar entre 0 y 2"))
        /\ (Message req <> "" ->
            (forall t, Temperature req = Some t -> within_0_2 t = true) ->
            (MaxTokens req < 0)%Z ->
            outcome (stubs logging svc) (HandleChat json_Decode NewRecorder r)
              = Some (errorReply 400 "max_tokens debe ser mayor o igual a 0"))).
Proof.
  intros Hpost Hnan. unfold outcome.
  rewrite (HandleChat_exec json_Decode svc NewRecorder r Hpost).
  split.
  - intros err ->. reflexivity.
  - intros req Hd. rewrite Hd.
    rewrite (Validate_cases req (fun t => Hnan req t Hd)).
    split; [|split].
    + intros ->. reflexivity.
    + intros Hm [t [Ht Hw]]. rewrite (eqb_empty_false _ Hm), Ht, Hw. reflexivity.
    + intros Hm Hin Hneg. rewrite (eqb_empty_false _ Hm).
      destruct (Temperature req) as [t|].
      * rewrite (Hin t eq_refl). simpl.
        destruct (Z.ltb_spec (MaxTokens req) 0); [reflexivity | lia].
      * destruct (Z.ltb_spec (MaxTokens req) 0); [reflexivity | lia].
Qed.

(** X12. On a GET with a working service, [HandleGetModels] answers 200 with
    one entry per model of the service's list, in the same order; each entry
    has the model's id both as id and as name, and its owner; the object and
    creation fields are not passed on. *)
Theorem HandleGetModels_lists_models
        (svc : Stub domain.ChatService) (r : Request)
        (response : domain.ModelsResponse) :
  Method r = MethodGet ->
  svc _ domain.GetAvailableModels = Ok response ->
  domain.Data response <> [] ->
  outcome (stubs logging svc) (HandleGetModels NewRecorder r)
  = Some {| WHeader := [("Content-Type", "application/json")];
            WCode := 200;
            WBody := [ json.Object
                         [ ("success", json.Bool true);
                           ("models", json.Array (map modelDocument
                                                      (domain.Data response))) ] ] |}.
Proof.
  intros Hget Hsvc Hne. unfold outcome.
  rewrite (HandleGetModels_exec svc NewRecorder r Hget), Hsvc.
  cbn [snd]. unfold writeJSONResponse, Encode, WriteHeader, NewModelsResponse.
  cbn [WHeader WCode WBody NewRecorder]. simpl Header_Set.
  unfold json.Marshal at 1, ModelsResponse_Marshaler.
  cbn [ModelsResponse_Success Models ModelsResponse_Error].
  destruct (domain.Data response) as [|m rest] eqn:Ed; [congruence|].
  unfold json.omitempty_slice. cbn [map]. rewrite map_modelDocument. reflexivity.
Qed.

(** X13. When the service's list is empty the 200 reply has no models
    member at all: the document is just success=true. *)
Theorem HandleGetModels_empty_list
        (svc : Stub domain.ChatService) (r : Request)
        (response : domain.ModelsResponse) :
  Method r = MethodGet ->
  svc _ domain.GetAvailableModels = Ok response ->
  domain.Data response = [] ->
  outcome (stubs logging svc) (HandleGetModels NewRecorder r)
  = Some {| WHeader := [("Content-Type", "application/json")];
            WCode := 200;
            WBody := [ json.Object [ ("success", json.Bool true) ] ] |}.
Proof.
  intros Hget Hsvc He. unfold outcome.
  rewrite (HandleGetModels_exec svc NewRecorder r Hget), Hsvc, He. reflexivity.
Qed.

(** X14. [HandleGetModels] answers a method other than GET with 405 without
    calling the service; and on a GET every service error gives the same
    500 reply with the text "error al obtener modelos", the error's own
    message going to the log only. *)
Theorem HandleGetModels_failures (svc : Stub domain.ChatService) (r : Request) :
  (Method r <> MethodGet ->
   outcome (stubs logging svc) (HandleGetModels NewRecorder r)
     = Some (errorReply 405 "método no permitido")
   /\ portCalls (trace (stubs logging svc) (HandleGetModels NewRecorder r)) = [])
  /\ (forall e, Method r = MethodGet ->
        svc _ domain.GetAvailableModels = Err e ->
        outcome (stubs logging svc) (HandleGetModels NewRecorder r)
          = Some (errorReply 500 "error al obtener modelos")
        /\ logLines (trace (stubs logging svc) (HandleGetModels NewRecorder r))
           = [ "[" ++ Method r ++ "] " ++ URL r ++ " - HandleGetModels";
               "Error al obtener modelos: " ++ Error e ]).
Proof.
  unfold outcome, trace. split.
  - intros Hm. rewrite (HandleGetModels_wrong_method svc NewRecorder r Hm).
    split; reflexivity.
  - intros e Hget He. rewrite (HandleGetModels_exec svc NewRecorder r Hget), He.
    split; reflexivity.
Qed.

End HandlerTexts.

(* ====================================================================== *)
(** * The recovery middleware *)
(* ====================================================================== *)

Section Recovery.
Import nethttp httpInfra.

Lemma exec_catch_returns {E : Type -> Type} {A : Type}
      (stub : Stub E) (p : Prog E A) (handler : string -> Prog E A) (a : A) :
  outcome stub p = Some a -> exec stub (catch p handler) = exec stub p.
Proof.
  unfold outcome. induction p as [x|reason|X e k IH]; simpl; intros H.
  - reflexivity.
  - discriminate.
  - destruct (exec stub (k (stub X e))) as [t o] eqn:Ek. simpl in H.
    rewrite IH by (rewrite Ek; exact H). rewrite Ek. reflexivity.
Qed.

Lemma exec_catch_panics {E : Type -> Type} {A : Type}
      (stub : Stub E) (p : Prog E A) (handler : string -> Prog E A) (reason : string) :
  panicOf stub p = Some reason ->
  exec stub (catch p handler)
  = ((trace stub p ++ trace stub (handler reason))%list, outcome stub (handler reason)).
Proof.
  unfold trace, outcome. induction p as [x|v|X e k IH]; simpl; intros H.
  - discriminate.
  - injection H as ->. destruct (exec stub (handler reason)); reflexivity.
  - rewrite (IH _ H). destruct (exec stub (k (stub X e))). reflexivity.
Qed.

Lemma outcome_or_panic {E : Type -> Type} {A : Type} (stub : Stub E) (p : Prog E A) :
  (exists a, outcome stub p = Some a) \/ (exists reason, panicOf stub p = Some reason).
Proof.
  unfold outcome. induction p as [x|v|X e k IH]; simpl.
  - left. eexists; reflexivity.
  - right. eexists; reflexivity.
  - destruct (IH (stub X e)) as [[a Ha]|[v Hv]].
    + left. exists a. destruct (exec stub (k (stub X e))). exact Ha.
    + right. exists v. exact Hv.
Qed.

(** X15. Behind [recoveryMiddleware] no panic gets out.  A handler that
    returns is left alone: same operations, same reply.  A handler that
    panics before writing gets its panic value logged after "PANIC: " and
    the client receives 500 with success=false and the text
    "internal server error". *)
Theorem recoveryMiddleware_contains_panics
        (E : Type -> Type)
        (next : ResponseWriter -> Request -> Prog (Logger +' E) ResponseWriter)
        (stub : Stub (Logger +' E)) (r : Request) :
  outcome stub (recoveryMiddleware next NewRecorder r) <> None
  /\ (forall w', outcome stub (next NewRecorder r) = Some w' ->
        exec stub (recoveryMiddleware next NewRecorder r) = exec stub (next NewRecorder r))
  /\ (forall reason, panicOf stub (next NewRecorder r) = Some reason ->
        exec stub (recoveryMiddleware next NewRecorder r)
        = ((trace stub (next NewRecorder r)
            ++ [ev (inl1 (Printf ("PANIC: " ++ reason)))])%list,
           Some {| WHeader := [("Content-Type", "application/json")];
                   WCode := 500;
                   WBody := [ json.Object [ ("success", json.Bool false);
                                            ("error", json.Str "internal server error") ] ] |})).
Proof.
  assert (Hret : forall w', outcome stub (next NewRecorder r) = Some w' ->
             exec stub (recoveryMiddleware next NewRecorder r)
             = exec stub (next NewRecorder r)).
  { intros w' H. unfold recoveryMiddleware. exact (exec_catch_returns stub _ _ w' H). }
  assert (Hpanic : forall reason, panicOf stub (next NewRecorder r) = Some reason ->
             exec stub (recoveryMiddleware next NewRecorder r)
             = ((trace stub (next NewRecorder r)
                 ++ [ev (inl1 (Printf ("PANIC: " ++ reason)))])%list,
                Some {| WHeader := [("Content-Type", "application/json")];
                        WCode := 500;
                        WBody := [ json.Object [ ("success", json.Bool false);
                                                 ("error", json.Str "internal server error") ] ] |})).
  { intros reason H. unfold recoveryMiddleware.
    rewrite (exec_catch_panics stub _ _ reason H). reflexivity. }
  split; [|split; assumption].
  destruct (outcome_or_panic stub (next NewRecorder r)) as [[w' H]|[reason H]].
  - unfold outcome. rewrite (Hret w' H). unfold outcome in H. rewrite H. discriminate.
  - unfold outcome. rewrite (Hpanic reason H). discriminate.
Qed.


End Recovery.

(* ====================================================================== *)
(** * Further properties of the assembled endpoints *)
(* ====================================================================== *)

Section Layers.

Lemma onRight_exec {L E F : Type -> Type} {R : Type}
      (h : Adapter E F) (l : Stub L) (st : Stub F) (fb : Stub E)
      (p : Prog (L +' E) R) :
  (forall X e, outcome st (h X e) <> None) ->
  exec (stubs l st) (interp (onRight h) p) =
    (flat_map (fun e => trace (stubs l st) (onRight h (projT1 e) (projT2 e)))
              (fst (exec (stubs l (answered h st fb)) p)),
     snd (exec (stubs l (answered h st fb)) p)).
Proof.
  intros Htotal.
  rewrite (exec_interp _ _ (stubs l fb)) by (apply onRight_total; exact Htotal).
  unfold trace, outcome.
  rewrite (exec_ext _ (stubs l (answered h st fb))) by (apply answered_onRight).
  reflexivity.
Qed.

Lemma portCalls_onRight {E F : Type -> Type}
      (h : Adapter E F) (st : Stub F)
      (t : list (event (httpInfra.Logger +' E))) :
  portCalls (flat_map (fun e => trace (stubs logging st)
                                      (onRight h (projT1 e) (projT2 e))) t)
  = flat_map (fun e => trace st (h (projT1 e) (projT2 e))) (portCalls t).
Proof.
  induction t as [|[X [a|b]] t IH]; simpl; [reflexivity| |].
  - exact IH.
  - rewrite portCalls_app, IH. unfold trace at 1. rewrite exec_liftR. cbn [fst].
    rewrite (portCalls_inRight (L := httpInfra.Logger)). reflexivity.
Qed.

Lemma logLines_app {E : Type -> Type} (t u : list (event (httpInfra.Logger +' E))) :
  logLines (t ++ u)%list = (logLines t ++ logLines u)%list.
Proof. unfold logLines. apply flat_map_app. Qed.

Lemma logLines_inRight {F : Type -> Type} (t : list (event F)) :
  logLines (map (inRight (L := httpInfra.Logger)) t) = [].
Proof. induction t as [|[X e] t IH]; simpl; [reflexivity | exact IH]. Qed.

Lemma logLines_onRight {E F : Type -> Type}
      (h : Adapter E F) (st : Stub F)
      (t : list (event (httpInfra.Logger +' E))) :
  logLines (flat_map (fun e => trace (stubs logging st)
                                     (onRight h (projT1 e) (projT2 e))) t)
  = logLines t.
Proof.
  induction t as [|[X [a|b]] t IH]; simpl; [reflexivity| |].
  - destruct a. simpl. f_equal. exact IH.
  - rewrite logLines_app, IH. unfold trace at 1. rewrite exec_liftR. cbn [fst].
    rewrite logLines_inRight. reflexivity.
Qed.

(** A handler program run over the service and the client, against an
    upstream stub. *)
Lemma stack_exec {R : Type}
      (lib : groq.Library) (s : application.ChatServiceImpl) (c : groq.GroqClient)
      (upstream : Stub nethttp.Client)
      (p : Prog (httpInfra.Logger +' domain.ChatService) R) :
  outcome (stubs logging upstream)
          (interp (onRight (groq.repository lib c))
                  (interp (onRight (application.service s)) p))
  = outcome (stubs logging (serviceOver s (repositoryOver lib c upstream))) p
  /\ portCalls (trace (stubs logging upstream)
                      (interp (onRight (groq.repository lib c))
                              (interp (onRight (application.service s)) p)))
     = flat_map (fun e => trace upstream (groq.repository lib c (projT1 e) (projT2 e)))
         (flat_map (fun e => trace (repositoryOver lib c upstream)
                                   (application.service s (projT1 e) (projT2 e)))
            (portCalls (trace (stubs logging (serviceOver s (repositoryOver lib c upstream)))
                              p)))
  /\ logLines (trace (stubs logging upstream)
                     (interp (onRight (groq.repository lib c))
                             (interp (onRight (application.service s)) p)))
     = logLines (trace (stubs logging (serviceOver s (repositoryOver lib c upstream))) p).
Proof.
  unfold outcome, trace.
  rewrite (onRight_exec (groq.repository lib c) logging upstream noRepository)
    by (apply repository_total).
  fold (repositoryOver lib c upstream).
  rewrite (onRight_exec (application.service s) logging
             (repositoryOver lib c upstream) noService)
    by (apply service_total).
  fold (serviceOver s (repositoryOver lib c upstream)).
  cbn [fst snd].
  split; [reflexivity|]. split.
  - rewrite !portCalls_onRight. reflexivity.
  - rewrite !logLines_onRight. reflexivity.
Qed.

Lemma doRequest_trace_le (lib : groq.Library) (c : groq.GroqClient)
      (upstream : Stub nethttp.Client) (method url : string) (body : option string) :
  (length (trace upstream (groq.doRequest lib c method url body)) <= 1)%nat.
Proof.
  unfold trace, groq.doRequest.
  destruct (groq.http_NewRequestWithContext lib method url body) as [rq|err];
    [|simpl; lia].
  cbn [exec bind call].
  destruct (upstream _ _) as [resp|err]; [|simpl; lia].
  destruct (nethttp.RespBody resp) as [b|err]; [|simpl; lia].
  destruct (_ || _); simpl; lia.
Qed.

Lemma repository_trace_le (lib : groq.Library) (c : groq.GroqClient)
      (upstream : Stub nethttp.Client) (X : Type) (op : domain.GroqRepository X) :
  (length (trace upstream (groq.repository lib c X op)) <= 1)%nat.
Proof.
  destruct op as [request|]; simpl; unfold trace.
  - unfold groq.CreateChatCompletion.
    destruct (groq.json_Marshal lib request) as [data|err]; [|simpl; lia].
    rewrite exec_bind.
    pose proof (doRequest_trace_le lib c upstream nethttp.MethodPost
                  (groq.baseURL c ++ groq.ChatCompletionsEndpoint) (Some data)) as Hle.
    unfold trace in Hle.
    destruct (exec upstream (groq.doRequest lib c _ _ _)) as [t [[body|err]|]];
      simpl in *; try (rewrite app_nil_r; exact Hle); try exact Hle.
    destruct (groq.json_Unmarshal_ChatResponse lib body); simpl;
      rewrite app_nil_r; exact Hle.
  - unfold groq.ListModels. rewrite exec_bind.
    pose proof (doRequest_trace_le lib c upstream nethttp.MethodGet
                  (groq.baseURL c ++ groq.ModelsEndpoint) None) as Hle.
    unfold trace in Hle.
    destruct (exec upstream (groq.doRequest lib c _ _ _)) as [t [[body|err]|]];
      simpl in *; try (rewrite app_nil_r; exact Hle); try exact Hle.
    destruct (groq.json_Unmarshal_ModelsResponse lib body); simpl;
      rewrite app_nil_r; exact Hle.
Qed.

Lemma service_trace_le (s : application.ChatServiceImpl)
      (gateway : Stub domain.GroqRepository) (X : Type) (op : domain.ChatService X) :
  (length (trace gateway (application.service s X op)) <= 1)%nat.
Proof.
  destruct op as [message model|]; simpl.
  - destruct (String.eqb_spec message "") as [->|Hm]; [simpl; lia|].
    destruct (String.eqb_spec (chosenModel s model) "") as [Hc|Hc].
    + rewrite (SendMessage_no_model s message model Hm Hc). simpl; lia.
    + unfold trace. rewrite (SendMessage_exec s message model gateway Hm Hc). simpl; lia.
  - unfold trace, application.GetAvailableModels. simpl.
    destruct (gateway _ _); simpl; lia.
Qed.

Lemma flat_map_le_one {A B : Type} (f : A -> list B) (l : list A) :
  (length l <= 1)%nat -> (forall a, length (f a) <= 1)%nat ->
  (length (flat_map f l) <= 1)%nat.
Proof.
  intros Hl Hf. destruct l as [|a [|b l]]; simpl in *; [lia| |lia].
  rewrite app_nil_r. apply Hf.
Qed.

End Layers.

Section EndpointsMore.
Import nethttp httpInfra.

Lemma HandleChat_calls_le (json_Decode : option string -> Result ChatRequest)
      (svc : Stub domain.ChatService) (r : Request) :
  (length (portCalls (trace (stubs logging svc)
                            (HandleChat json_Decode NewRecorder r))) <= 1)%nat.
Proof.
  unfold trace.
  destruct (String.eqb_spec (Method r) MethodPost) as [Hpost|Hm].
  - rewrite (HandleChat_exec json_Decode svc NewRecorder r Hpost).
    destruct (json_Decode (Body r)) as [req|err]; [|simpl; lia].
    destruct (Validate req); [simpl; lia|].
    destruct (svc _ _); simpl; lia.
  - rewrite (HandleChat_wrong_method json_Decode svc NewRecorder r Hm). simpl; lia.
Qed.

Lemma HandleChat_rejected_calls (json_Decode : option string -> Result ChatRequest)
      (svc : Stub domain.ChatService) (r : Request) (w' : ResponseWriter) :
  outcome (stubs logging svc) (HandleChat json_Decode NewRecorder r) = Some w' ->
  WCode w' = 400%Z \/ WCode w' = 405%Z ->
  portCalls (trace (stubs logging svc) (HandleChat json_Decode NewRecorder r)) = [].
Proof.
  unfold outcome, trace.
  destruct (String.eqb_spec (Method r) MethodPost) as [Hpost|Hm].
  - rewrite (HandleChat_exec json_Decode svc NewRecorder r Hpost).
    destruct (json_Decode (Body r)) as [req|err]; [|reflexivity].
    destruct (Validate req); [reflexivity|].
    destruct (svc _ _); simpl; intros H; injection H as <-; simpl;
      intros [H|H]; discriminate.
  - rewrite (HandleChat_wrong_method json_Decode svc NewRecorder r Hm). reflexivity.
Qed.

Lemma HandleGetModels_calls_le (svc : Stub domain.ChatService) (r : Request) :
  (length (portCalls (trace (stubs logging svc) (HandleGetModels NewRecorder r))) <= 1)%nat.
Proof.
  unfold trace.
  destruct (String.eqb_spec (Method r) MethodGet) as [Hget|Hm].
  - rewrite (HandleGetModels_exec svc NewRecorder r Hget).
    destruct (svc _ _); simpl; lia.
  - rewrite (HandleGetModels_wrong_method svc NewRecorder r Hm). simpl; lia.
Qed.

Lemma repositoryOver_rejected (lib : groq.Library) (c : groq.GroqClient)
      (request : domain.ChatRequest) (data : string) (status : Z) (body : string) :
  (forall method url b,
      exists rq, groq.http_NewRequestWithContext lib method url b = Ok rq) ->
  groq.json_Marshal lib request = Ok data ->
  (status < 200 \/ 300 <= status)%Z ->
  repositoryOver lib c (replying (Ok {| StatusCode := status; RespBody := Ok body |}))
                 _ (domain.CreateChatCompletion request)
  = Err (Errorf_w "error en la petición HTTP: " (statusError status body)).
Proof.
  intros Hnew Hmarshal Hs. unfold repositoryOver, answered. simpl.
  unfold groq.CreateChatCompletion. rewrite Hmarshal.
  erewrite outcome_bind by (apply doRequest_rejected; assumption).
  reflexivity.
Qed.

Lemma repositoryOver_accepted (lib : groq.Library) (c : groq.GroqClient)
      (request : domain.ChatRequest) (data : string) (status : Z) (body : string) :
  (forall method url b,
      exists rq, groq.http_NewRequestWithContext lib method url b = Ok rq) ->
  groq.json_Marshal lib request = Ok data ->
  (200 <= status < 300)%Z ->
  repositoryOver lib c (replying (Ok {| StatusCode := status; RespBody := Ok body |}))
                 _ (domain.CreateChatCompletion request)
  = match groq.json_Unmarshal_ChatResponse lib body with
    | Ok response => Ok response
    | Err err => Err (Errorf_w "error al parsear respuesta: " err)
    end.
Proof.
  intros Hnew Hmarshal Hs. unfold repositoryOver, answered. simpl.
  unfold groq.CreateChatCompletion. rewrite Hmarshal.
  erewrite outcome_bind by (apply doRequest_accepted; assumption).
  cbn beta iota. destruct (groq.json_Unmarshal_ChatResponse lib body); reflexivity.
Qed.

Lemma repositoryOver_ListModels (lib : groq.Library) (c : groq.GroqClient)
      (status : Z) (body : string) :
  (forall method url b,
      exists rq, groq.http_NewRequestWithContext lib method url b = Ok rq) ->
  repositoryOver lib c (replying (Ok {| StatusCode := status; RespBody := Ok body |}))
                 _ domain.ListModels
  = if (status <? 200)%Z || (status >=? 300)%Z
    then Err (Errorf_w "error al obtener modelos: " (statusError status body))
    else match groq.json_Unmarshal_ModelsResponse lib body with
         | Ok models => Ok models
         | Err err => Err (Errorf_w "error al parsear modelos: " err)
         end.
Proof.
  intros Hnew. unfold repositoryOver, answered. simpl. unfold groq.ListModels.
  destruct ((status <? 200)%Z || (status >=? 300)%Z) eqn:Es.
  - erewrite outcome_bind.
    2:{ apply doRequest_rejected; [exact Hnew|].
        apply orb_true_iff in Es. destruct Es as [H|H].
        - left. apply Z.ltb_lt. exact H.
        - right. apply Z.geb_le in H. lia. }
    reflexivity.
  - erewrite outcome_bind.
    2:{ apply doRequest_accepted; [exact Hnew|].
        apply orb_false_iff in Es. destruct Es as [H1 H2].
        apply Z.ltb_ge in H1.
        destruct (Z.geb_spec status 300); [discriminate | lia]. }
    cbn beta iota. destruct (groq.json_Unmarshal_ModelsResponse lib body); reflexivity.
Qed.

Lemma serviceOver_GetAvailableModels (s : application.ChatServiceImpl)
      (gateway : Stub domain.GroqRepository) :
  serviceOver s gateway _ domain.GetAvailableModels
  = match gateway _ domain.ListModels with
    | Ok models => Ok models
    | Err err => Err (Errorf_w "error al obtener modelos: " err)
    end.
Proof.
  unfold serviceOver, answered, outcome. simpl. unfold application.GetAvailableModels.
  simpl. destruct (gateway _ _); reflexivity.
Qed.

(** X17. One request to either endpoint costs at most one outbound call to
    the upstream, whatever the upstream answers; and a chat request answered
    with 400 or 405 costs none. *)
Theorem endpoints_outbound_calls
        (json_Decode : option string -> Result ChatRequest)
        (lib : groq.Library) (s : application.ChatServiceImpl) (c : groq.GroqClient)
        (upstream : Stub Client) (r : Request) :
  (length (portCalls (trace (stubs logging upstream)
                            (main.chatEndpoint json_Decode lib s c NewRecorder r))) <= 1)%nat
  /\ (length (portCalls (trace (stubs logging upstream)
                               (main.modelsEndpoint lib s c NewRecorder r))) <= 1)%nat
  /\ (forall w',
         outcome (stubs logging upstream)
                 (main.chatEndpoint json_Decode lib s c NewRecorder r) = Some w' ->
         WCode w' = 400%Z \/ WCode w' = 405%Z ->
         portCalls (trace (stubs logging upstream)
                          (main.chatEndpoint json_Decode lib s c NewRecorder r)) = []).
Proof.
  unfold main.chatEndpoint, main.chatOverRepository,
         main.modelsEndpoint, main.modelsOverRepository.
  destruct (stack_exec lib s c upstream (HandleChat json_Decode NewRecorder r))
    as [Ho [Hc _]].
  destruct (stack_exec lib s c upstream (HandleGetModels NewRecorder r))
    as [_ [Hc' _]].
  rewrite Hc, Hc', Ho. split; [|split].
  - apply flat_map_le_one; [|intros [X e]; apply repository_trace_le].
    apply flat_map_le_one; [|intros [X e]; apply service_trace_le].
    apply HandleChat_calls_le.
  - apply flat_map_le_one; [|intros [X e]; apply repository_trace_le].
    apply flat_map_le_one; [|intros [X e]; apply service_trace_le].
    apply HandleGetModels_calls_le.
  - intros w' Hout Hcode.
    rewrite (HandleChat_rejected_calls json_Decode _ r w' Hout Hcode). reflexivity.
Qed.

(** X18. When the upstream rejects a chat request, the server's log holds
    the whole chain: after the access line comes one line made of
    "Error en servicio: ", the service's prefix, the client's prefix, and the
    upstream's status code and raw body. *)
Theorem upstream_rejection_is_logged
        (json_Decode : option string -> Result ChatRequest)
        (lib : groq.Library) (s : application.ChatServiceImpl) (c : groq.GroqClient)
        (r : Request) (req : ChatRequest) (data : string) (status : Z) (body : string) :
  Method r = MethodPost ->
  json_Decode (Body r) = Ok req ->
  Validate req = None ->
  chosenModel s (Model req) <> "" ->
  (forall method url b,
      exists rq, groq.http_NewRequestWithContext lib method url b = Ok rq) ->
  groq.json_Marshal lib
    (domain.NewChatRequest (chosenModel s (Model req))
                           [domain.NewChatMessage "user" (Message req)]) = Ok data ->
  (status < 200 \/ 300 <= status)%Z ->
  logLines (trace (stubs logging (replying (Ok {| StatusCode := status;
                                                  RespBody := Ok body |})))
                  (main.chatEndpoint json_Decode lib s c NewRecorder r))
  = [ "[" ++ Method r ++ "] " ++ URL r ++ " - HandleChat";
      "Error en servicio: error al obtener respuesta de Groq: "
        ++ "error en la petición HTTP: API retornó status "
        ++ fmt_d status ++ ": " ++ body ].
Proof.
  intros Hpost Hd Hv Hc Hnew Hmarshal Hs.
  pose proof (Validate_message_present req Hv) as Hm.
  unfold main.chatEndpoint, main.chatOverRepository.
  destruct (stack_exec lib s c
              (replying (Ok {| StatusCode := status; RespBody := Ok body |}))
              (HandleChat json_Decode NewRecorder r)) as [_ [_ Hl]].
  rewrite Hl. unfold trace.
  rewrite (HandleChat_exec json_Decode _ NewRecorder r Hpost), Hd, Hv.
  rewrite (serviceOver_SendMessage s _ _ _ Hm Hc).
  rewrite (repositoryOver_rejected lib c _ data status body Hnew Hmarshal Hs).
  reflexivity.
Qed.

(** X19. An upstream that answers 2xx with a well-formed completion holding
    no choice does not produce an empty 200 reply: the client receives the
    generic 500. *)
Theorem empty_completion_is_a_failure
        (json_Decode : option string -> Result ChatRequest)
        (lib : groq.Library) (s : application.ChatServiceImpl) (c : groq.GroqClient)
        (r : Request) (req : ChatRequest) (data : string) (status : Z) (body : string)
        (response : domain.ChatResponse) :
  Method r = MethodPost ->
  json_Decode (Body r) = Ok req ->
  Validate req = None ->
  chosenModel s (Model req) <> "" ->
  (forall method url b,
      exists rq, groq.http_NewRequestWithContext lib method url b = Ok rq) ->
  groq.json_Marshal lib
    (domain.NewChatRequest (chosenModel s (Model req))
                           [domain.NewChatMessage "user" (Message req)]) = Ok data ->
  (200 <= status < 300)%Z ->
  groq.json_Unmarshal_ChatResponse lib body = Ok response ->
  domain.Choices response = [] ->
  outcome (stubs logging (replying (Ok {| StatusCode := status; RespBody := Ok body |})))
          (main.chatEndpoint json_Decode lib s c NewRecorder r)
  = Some genericFailure.
Proof.
  intros Hpost Hd Hv Hc Hnew Hmarshal Hs Hu Hch.
  pose proof (Validate_message_present req Hv) as Hm.
  rewrite chatEndpoint_outcome. unfold outcome.
  rewrite (HandleChat_exec json_Decode _ NewRecorder r Hpost), Hd, Hv.
  rewrite (serviceOver_SendMessage s _ _ _ Hm Hc).
  rewrite (repositoryOver_accepted lib c _ data status body Hnew Hmarshal Hs), Hu.
  unfold afterCompletion. rewrite Hch. reflexivity.
Qed.

(** X20. The models endpoint end to end.  On a GET, an upstream answering
    2xx with a list that deserializes to at least one model gives 200 with
    those models in order (id, the id again as name, owner); an upstream
    answering outside 200..299 gives 500 with the text
    "error al obtener modelos", whatever its status and body. *)
Theorem modelsEndpoint_replies
        (lib : groq.Library) (s : application.ChatServiceImpl) (c : groq.GroqClient)
        (r : Request) (status : Z) (body : string) :
  Method r = MethodGet ->
  (forall method url b,
      exists rq, groq.http_NewRequestWithContext lib method url b = Ok rq) ->
  (forall models,
      (200 <= status < 300)%Z ->
      groq.json_Unmarshal_ModelsResponse lib body = Ok models ->
      domain.Data models <> [] ->
      outcome (stubs logging (replying (Ok {| StatusCode := status; RespBody := Ok body |})))
              (main.modelsEndpoint lib s c NewRecorder r)
      = Some {| WHeader := [("Content-Type", "application/json")];
                WCode := 200;
                WBody := [ json.Object
                             [ ("success", json.Bool true);
                               ("models", json.Array (map modelDocument
                                                          (domain.Data models))) ] ] |})
  /\ ((status < 200 \/ 300 <= status)%Z ->
      outcome (stubs logging (replying (Ok {| StatusCode := status; RespBody := Ok body |})))
              (main.modelsEndpoint lib s c NewRecorder r)
      = Some (errorReply 500 "error al obtener modelos")).
Proof.
  intros Hget Hnew.
  unfold main.modelsEndpoint, main.modelsOverRepository.
  destruct (stack_exec lib s c
              (replying (Ok {| StatusCode := status; RespBody := Ok body |}))
              (HandleGetModels NewRecorder r)) as [Ho _].
  rewrite Ho. unfold outcome.
  rewrite (HandleGetModels_exec _ NewRecorder r Hget).
  rewrite serviceOver_GetAvailableModels, (repositoryOver_ListModels lib c status body Hnew).
  split.
  - intros models Hs Hu Hne. rewrite (range_inside status Hs), Hu.
    cbn [snd]. unfold writeJSONResponse, Encode, WriteHeader, NewModelsResponse.
    cbn [WHeader WCode WBody NewRecorder]. simpl Header_Set.
    unfold json.Marshal at 1, ModelsResponse_Marshaler.
    cbn [ModelsResponse_Success Models ModelsResponse_Error].
    destruct (domain.Data models) as [|m rest] eqn:Ed; [congruence|].
    unfold json.omitempty_slice. cbn [map]. rewrite map_modelDocument. reflexivity.
  - intros Hs. rewrite (range_outside status Hs). reflexivity.
Qed.

End EndpointsMore.

(* ====================================================================== *)
(** * Properties of the configuration *)
(* ====================================================================== *)

Section ConfigFacts.
Import config.

Lemma length_substring (n m : nat) (s : string) :
  (n + m <= String.length s)%nat -> String.length (substring n m s) = m.
Proof.
  revert n m. induction s as [|ch s IH]; intros n m H; simpl in *.
  - assert (n = 0 /\ m = 0)%nat as [-> ->] by lia. reflexivity.
  - destruct n as [|n].
    + destruct m as [|m]; [reflexivity|]. simpl. f_equal. apply IH. simpl. lia.
    + apply IH. lia.
Qed.

Lemma length_app_string (a b : string) :
  String.length (a ++ b) = (String.length a + String.length b)%nat.
Proof. induction a as [|x a IH]; simpl; [reflexivity | f_equal; exact IH]. Qed.

Lemma maskAPIKey_value (key : string) :
  maskAPIKey key =
    Some (if (String.length key <=? 8)%nat then "***"
          else substring 0 4 key ++ "..." ++ substring (String.length key - 4) 4 key).
Proof.
  unfold maskAPIKey, slice.
  destruct (Nat.leb_spec (String.length key) 8) as [Hle|Hgt].
  - destruct (Z.leb_spec (Z.of_nat (String.length key)) 8); [reflexivity | lia].
  - destruct (Z.leb_spec (Z.of_nat (String.length key)) 8); [lia|].
    replace ((0 <=? 0)%Z && (0 <=? 4)%Z && (4 <=? Z.of_nat (String.length key))%Z)
      with true
      by (symmetry; apply andb_true_iff; split; [reflexivity | apply Z.leb_le; lia]).
    replace ((0 <=? Z.of_nat (String.length key) - 4)%Z
             && (Z.of_nat (String.length key) - 4 <=? Z.of_nat (String.length key))%Z
             && (Z.of_nat (String.length key) <=? Z.of_nat (String.length key))%Z)
      with true
      by (symmetry; rewrite !andb_true_iff; repeat split; apply Z.leb_le; lia).
    replace (Z.to_nat (4 - 0)) with 4%nat by reflexivity.
    replace (Z.to_nat 0) with 0%nat by reflexivity.
    replace (Z.to_nat (Z.of_nat (String.length key) - 4))
      with (String.length key - 4)%nat by lia.
    replace (Z.to_nat (Z.of_nat (String.length key)
                       - (Z.of_nat (String.length key) - 4))) with 4%nat by lia.
    reflexivity.
Qed.

(** X21. [maskAPIKey] never slices out of bounds.  A key of at most 8 bytes
    is shown as "***"; a longer one as its first four bytes, "..." and its
    last four bytes, 11 bytes in all.  So the mask of a longer key depends on
    nothing but those eight bytes: two keys that agree on them have the same
    mask, whatever lies between and however long they are. *)
Theorem maskAPIKey_shows_only_the_ends (key : string) :
  (exists masked, maskAPIKey key = Some masked /\ (String.length masked <= 11)%nat)
  /\ ((String.length key <= 8)%nat -> maskAPIKey key = Some "***")
  /\ ((8 < String.length key)%nat ->
      maskAPIKey key
      = Some (substring 0 4 key ++ "..." ++ substring (String.length key - 4) 4 key))
  /\ (forall other,
         (8 < String.length key)%nat -> (8 < String.length other)%nat ->
         substring 0 4 key = substring 0 4 other ->
         substring (String.length key - 4) 4 key
           = substring (String.length other - 4) 4 other ->
         maskAPIKey key = maskAPIKey other).
Proof.
  rewrite maskAPIKey_value. split; [|split; [|split]].
  - eexists. split; [reflexivity|].
    destruct (Nat.leb_spec (String.length key) 8); [simpl; lia|].
    rewrite !length_app_string, !length_substring by lia. simpl. lia.
  - intros H. apply Nat.leb_le in H. rewrite H. reflexivity.
  - intros H. destruct (Nat.leb_spec (String.length key) 8); [lia | reflexivity].
  - intros other Hk Ho Hfront Hback. rewrite maskAPIKey_value.
    destruct (Nat.leb_spec (String.length key) 8); [lia|].
    destruct (Nat.leb_spec (String.length other) 8); [lia|].
    rewrite Hfront, Hback. reflexivity.
Qed.

Section Parsing.
Variable strconv_Atoi : string -> Result Z.
Variable Duration_String : Z -> string.
Variable os : Stub OS.

Lemma getEnv_outcome (key defaultValue : string) :
  exec os (getEnv key defaultValue) =
    ([ev (Getenv key)],
     Some (if os _ (Getenv key) =? "" then defaultValue else os _ (Getenv key))).
Proof.
  unfold getEnv. simpl. destruct (os _ (Getenv key) =? ""); reflexivity.
Qed.

Lemma int64_exact (n : Z) :
  (-9223372036854775808 <= n < 9223372036854775808)%Z -> int64 n = n.
Proof.
  intros H. unfold int64. rewrite Z.mod_small by lia. lia.
Qed.

(** X22. A timeout variable that is unset, empty or not a number gives the
    default.  One that parses to [n] seconds gives exactly [n] seconds in
    nanoseconds as long as [n] is between -9223372036 and 9223372036; the
    product is an int64, so beyond that it wraps. *)
Theorem getEnvAsDuration_seconds (key : string) (defaultValue : Z) :
  (os _ (Getenv key) = "" ->
   outcome os (getEnvAsDuration strconv_Atoi key defaultValue) = Some defaultValue)
  /\ (forall e, strconv_Atoi (os _ (Getenv key)) = Err e ->
        outcome os (getEnvAsDuration strconv_Atoi key defaultValue) = Some defaultValue)
  /\ (forall n, os _ (Getenv key) <> "" ->
        strconv_Atoi (os _ (Getenv key)) = Ok n ->
        (-9223372036 <= n <= 9223372036)%Z ->
        outcome os (getEnvAsDuration strconv_Atoi key defaultValue)
          = Some (n * 1000000000)%Z)
  /\ (forall n, os _ (Getenv key) <> "" ->
        strconv_Atoi (os _ (Getenv key)) = Ok n ->
        outcome os (getEnvAsDuration strconv_Atoi key defaultValue)
          = Some (int64 (n * 1000000000))).
Proof.
  unfold outcome, getEnvAsDuration. simpl. repeat split.
  - intros ->. reflexivity.
  - intros e He. destruct (os _ (Getenv key) =? ""); [reflexivity|].
    rewrite He. reflexivity.
  - intros n Hne Hn Hrange. rewrite (eqb_empty_false _ Hne), Hn. simpl.
    unfold Second. rewrite int64_exact by lia. reflexivity.
  - intros n Hne Hn. rewrite (eqb_empty_false _ Hne), Hn. reflexivity.
Qed.

End Parsing.
End ConfigFacts.

Lemma outcome_Vis {E : Type -> Type} {R X : Type}
      (stub : Stub E) (e : E X) (k : X -> Prog E R) :
  outcome stub (Vis e k) = outcome stub (k (stub X e)).
Proof. unfold outcome. simpl. destruct (exec stub (k (stub X e))). reflexivity. Qed.

Lemma outcome_getEnv_bind {R : Type} (os : Stub config.OS)
      (key defaultValue : string) (f : string -> Prog config.OS R) :
  outcome os (bind (config.getEnv key defaultValue) f)
  = outcome os (f (envOr os key defaultValue)).
Proof.
  apply outcome_bind. unfold config.getEnv, outcome, envOr. simpl.
  destruct (os _ (config.Getenv key) =? ""); reflexivity.
Qed.

Section LoadFacts.
Import config.

Variable strconv_Atoi : string -> Result Z.
Variable os : Stub OS.

Lemma Load_outcome :
  outcome os (Load strconv_Atoi)
  = Some match Validate (configured strconv_Atoi os) with
         | Some err => Err err
         | None => Ok (configured strconv_Atoi os)
         end.
Proof.
  unfold Load. cbn [bind call]. rewrite outcome_Vis. cbv beta.
  assert (Hw : outcome os
                 match os _ GodotenvLoad with
                 | Some _ =>
                     Println "⚠️  Advertencia: archivo .env no encontrado, usando variables de entorno del sistema"
                 | None => Ret tt
                 end = Some tt).
  { destruct (os _ GodotenvLoad); [|reflexivity].
    unfold Println, outcome. simpl. destruct (os unit _). reflexivity. }
  rewrite (outcome_bind os _ _ tt Hw).
  rewrite !outcome_getEnv_bind.
  unfold getEnvAsDuration. cbn [bind call]. rewrite outcome_Vis.
  unfold configured, timeoutOf.
  destruct (os _ (Getenv "HTTP_TIMEOUT") =? "");
    [|destruct (strconv_Atoi _)]; cbn [bind];
    unfold outcome; destruct (Validate _); reflexivity.
Qed.

End LoadFacts.

Section LoadClaims.
Import config.

Lemma envOr_nonempty (os : Stub OS) (key defaultValue : string) :
  defaultValue <> "" -> envOr os key defaultValue <> "".
Proof.
  intros Hd. unfold envOr.
  destruct (String.eqb_spec (os _ (Getenv key)) ""); assumption.
Qed.

Lemma envOr_empty_default (os : Stub OS) (key : string) :
  envOr os key "" = os _ (Getenv key).
Proof.
  unfold envOr. destruct (String.eqb_spec (os _ (Getenv key)) "") as [->|]; reflexivity.
Qed.

Lemma Validate_configured (strconv_Atoi : string -> Result Z) (os : Stub OS) :
  Validate (configured strconv_Atoi os) =
    if os _ (Getenv "GROQ_API_KEY") =? "" then Some (errors_New "GROQ_API_KEY es requerido")
    else if (timeoutOf strconv_Atoi os <=? 0)%Z
         then Some (errors_New "HTTP_TIMEOUT debe ser mayor a 0")
         else None.
Proof.
  unfold Validate, configured.
  cbn [GroqAPIKey GroqBaseURL Port HTTPTimeout].
  rewrite envOr_empty_default.
  destruct (os _ (Getenv "GROQ_API_KEY") =? ""); [reflexivity|].
  assert (Hurl : envOr os "GROQ_BASE_URL" "https://api.groq.com/openai/v1" <> "")
    by (apply envOr_nonempty; discriminate).
  assert (Hport : envOr os "PORT" "8080" <> "")
    by (apply envOr_nonempty; discriminate).
  rewrite (eqb_empty_false _ Hurl), (eqb_empty_false _ Hport).
  reflexivity.
Qed.

(** X23. [Load] always returns.  It fails when GROQ_API_KEY is unset or
    empty; the only other failure is a timeout that is not positive: the
    port and base-URL checks of [Validate] can never fire, because those
    fields fall back to non-empty defaults.  A configuration it returns has
    a non-empty port, API key, base URL and default model, and a positive
    timeout. *)
Theorem Load_failures_and_guarantees (strconv_Atoi : string -> Result Z) (os : Stub OS) :
  exists res,
    outcome os (Load strconv_Atoi) = Some res
    /\ (os _ (Getenv "GROQ_API_KEY") = "" ->
        res = Err (errors_New "GROQ_API_KEY es requerido"))
    /\ (forall e, res = Err e ->
          e = errors_New "GROQ_API_KEY es requerido"
          \/ e = errors_New "HTTP_TIMEOUT debe ser mayor a 0")
    /\ (forall cfg, res = Ok cfg ->
          Port cfg = envOr os "PORT" "8080"
          /\ GroqAPIKey cfg = os _ (Getenv "GROQ_API_KEY")
          /\ GroqBaseURL cfg = envOr os "GROQ_BASE_URL" "https://api.groq.com/openai/v1"
          /\ DefaultModel cfg = envOr os "DEFAULT_MODEL" "llama-3.3-70b-versatile"
          /\ Port cfg <> "" /\ GroqAPIKey cfg <> "" /\ GroqBaseURL cfg <> ""
          /\ DefaultModel cfg <> "" /\ (0 < HTTPTimeout cfg)%Z).
Proof.
  eexists. split; [apply Load_outcome|].
  rewrite Validate_configured.
  destruct (String.eqb_spec (os _ (Getenv "GROQ_API_KEY")) "") as [Hk|Hk].
  - split; [reflexivity|]. split.
    + intros e H. injection H as <-. left. reflexivity.
    + discriminate.
  - destruct (Z.leb_spec (timeoutOf strconv_Atoi os) 0) as [Ht|Ht].
    + split; [congruence|]. split.
      * intros e H. injection H as <-. right. reflexivity.
      * discriminate.
    + split; [congruence|]. split; [discriminate|].
      intros cfg H. injection H as <-.
      unfold configured. cbn [Port GroqAPIKey GroqBaseURL DefaultModel HTTPTimeout].
      rewrite envOr_empty_default.
      repeat split; try assumption; apply envOr_nonempty; discriminate.
Qed.

(** X24. With a configuration that [Load] returned, building the client
    and the service does not panic; and the service then always has a model
    to send: for a non-empty message it calls the repository exactly once,
    whatever model string the caller passed. *)
Theorem dependencies_after_Load
        (strconv_Atoi : string -> Result Z) (os : Stub OS) (cfg : Config)
        (E : Type -> Type) :
  outcome os (Load strconv_Atoi) = Some (Ok cfg) ->
  @main.dependencies E cfg
    = Ret ({| groq.baseURL := GroqBaseURL cfg; groq.apiKey := GroqAPIKey cfg |},
           {| application.defaultModel := DefaultModel cfg |})
  /\ (forall message model (gateway : Stub domain.GroqRepository),
         message <> "" ->
         length (trace gateway
                       (application.SendMessage
                          {| application.defaultModel := DefaultModel cfg |}
                          message model)) = 1%nat).
Proof.
  intros Hload. rewrite Load_outcome, Validate_configured in Hload.
  destruct (String.eqb_spec (os _ (Getenv "GROQ_API_KEY")) "") as [Hk|Hk];
    [discriminate|].
  destruct (timeoutOf strconv_Atoi os <=? 0)%Z; [discriminate|].
  injection Hload as <-.
  assert (Hkey : GroqAPIKey (configured strconv_Atoi os) <> "").
  { unfold configured. cbn [GroqAPIKey]. rewrite envOr_empty_default. exact Hk. }
  assert (Hurl : GroqBaseURL (configured strconv_Atoi os) <> "").
  { apply envOr_nonempty. discriminate. }
  assert (Hmodel : DefaultModel (configured strconv_Atoi os) <> "").
  { apply envOr_nonempty. discriminate. }
  split.
  - unfold main.dependencies, groq.NewGroqClient, application.NewChatService.
    rewrite (eqb_empty_false _ Hkey), (eqb_empty_false _ Hurl). reflexivity.
  - intros message model gateway Hm. unfold trace.
    rewrite SendMessage_exec; [reflexivity | exact Hm |].
    unfold chosenModel. cbn [application.defaultModel].
    destruct (String.eqb_spec model ""); assumption.
Qed.

(** X25. [Print] never panics, and what it writes to standard output is the
    heading and one line each for the port, the base URL, the default model
    and the timeout, and last a line with the masked key: the API key
    reaches the output through [maskAPIKey] only. *)
Theorem Print_masks_the_key (Duration_String : Z -> string) (os : Stub OS) (c : Config) :
  outcome os (Print Duration_String c) <> None
  /\ exists masked,
       maskAPIKey (GroqAPIKey c) = Some masked
       /\ printed (trace os (Print Duration_String c))
          = [ "📋 Configuración cargada:" ++ newline;
              "   • Puerto: " ++ Port c ++ newline;
              "   • Groq Base URL: " ++ GroqBaseURL c ++ newline;
              "   • Modelo por defecto: " ++ DefaultModel c ++ newline;
              "   • HTTP Timeout: " ++ Duration_String (HTTPTimeout c) ++ newline;
              "   • API Key: " ++ masked ++ newline ].
Proof.
  unfold Print, Println, outcome, trace. rewrite (maskAPIKey_value (GroqAPIKey c)).
  cbn [must bind call exec]. 
  repeat match goal with
         | |- context [exec os (Ret ?x)] => change (exec os (Ret x)) with (@nil (event OS), Some x)
         end.
  split; [discriminate|]. eexists. split; reflexivity.
Qed.

End LoadClaims.

Section FirstChoice.
Import nethttp httpInfra.

(** X26. When the upstream's completion holds several choices, the reply
    is built from the first one alone: the message is its content, and the
    further choices change nothing in what the client receives. *)
Theorem further_choices_are_ignored
        (json_Decode : option string -> Result ChatRequest)
        (lib : groq.Library) (s : application.ChatServiceImpl) (c : groq.GroqClient)
        (r : Request) (req : ChatRequest) (data : string)
        (status : Z) (body : string)
        (response : domain.ChatResponse) (choice : domain.Choice)
        (others : list domain.Choice) :
  Method r = MethodPost ->
  json_Decode (Body r) = Ok req ->
  Validate req = None ->
  chosenModel s (Model req) <> "" ->
  (forall method url b,
      exists rq, groq.http_NewRequestWithContext lib method url b = Ok rq) ->
  groq.json_Marshal lib
    (domain.NewChatRequest (chosenModel s (Model req))
                           [domain.NewChatMessage "user" (Message req)]) = Ok data ->
  (200 <= status < 300)%Z ->
  groq.json_Unmarshal_ChatResponse lib body = Ok response ->
  domain.Choices response = choice :: others ->
  outcome (stubs logging (replying (Ok {| StatusCode := status; RespBody := Ok body |})))
          (main.chatEndpoint json_Decode lib s c NewRecorder r)
  = Some {| WHeader := [("Content-Type", "application/json")];
            WCode := 200;
            WBody :=
              [ json.Object
                  [ ("success", json.Bool true);
                    ("message", json.Str (domain.Content (domain.Message choice)));
                    ("model", json.Str (domain.ChatResponse_Model response));
                    ("usage", json.Marshal (usageInfo (domain.ChatResponse_Usage response))) ] ] |}.
Proof.
  intros Hpost Hd Hv Hc Hnew Hmarshal Hs Hu Hch.
  pose proof (Validate_message_present req Hv) as Hm.
  rewrite chatEndpoint_outcome. unfold outcome.
  rewrite (HandleChat_exec json_Decode _ NewRecorder r Hpost), Hd, Hv.
  rewrite (serviceOver_SendMessage s _ _ _ Hm Hc).
  rewrite (repositoryOver_accepted lib c _ data status body Hnew Hmarshal Hs), Hu.
  unfold afterCompletion. rewrite Hch. cbn [snd].
  unfold firstContent. rewrite Hch. reflexivity.
Qed.

End FirstChoice.

(* ====================================================================== *)
(** * The further properties, at the stubbed deployment *)
(* ====================================================================== *)

Section MoreWitnesses.
Import nethttp httpInfra.

Lemma SendMessage_explicit_model_witness :
  "hi" <> "" /\ "mixtral-8x7b-32768" <> ""
  /\ trace fixture.gateway
           (application.SendMessage {| application.defaultModel := "" |}
                                    "hi" "mixtral-8x7b-32768")
     = [ev (domain.CreateChatCompletion
              {| domain.Messages := [ {| domain.Role := "user"; domain.Content := "hi" |} ];
                 domain.Model := "mixtral-8x7b-32768";
                 domain.Temperature := None; domain.MaxTokens := 0 |})].
Proof.
  assert (Hm : "hi" <> "") by discriminate.
  assert (Hmodel : "mixtral-8x7b-32768" <> "") by discriminate.
  split; [exact Hm|]. split; [exact Hmodel|].
  exact (SendMessage_explicit_model {| application.defaultModel := "" |}
           "hi" "mixtral-8x7b-32768" fixture.gateway Hm Hmodel).
Defined.

Lemma SendMessage_wraps_cause_witness :
  "hi" <> "" /\ chosenModel fixture.chatService "" <> ""
  /\ exists e,
       outcome fixture.down (application.SendMessage fixture.chatService "hi" "")
         = Some (Err e)
       /\ Error e = "error al obtener respuesta de Groq: connection refused"
       /\ Unwrap e = Some (libraryError "connection refused").
Proof.
  assert (Hm : "hi" <> "") by discriminate.
  assert (Hc : chosenModel fixture.chatService "" <> "") by discriminate.
  split; [exact Hm|]. split; [exact Hc|].
  exact (SendMessage_wraps_cause fixture.chatService "hi" "" fixture.down
           (libraryError "connection refused") Hm Hc eq_refl).
Defined.

Lemma SendMessage_response_has_choice_witness :
  outcome fixture.gateway (application.SendMessage fixture.chatService "hi" "")
    = Some (Ok fixture.completion)
  /\ domain.Choices fixture.completion <> [].
Proof.
  assert (H : outcome fixture.gateway
                      (application.SendMessage fixture.chatService "hi" "")
              = Some (Ok fixture.completion)) by reflexivity.
  split; [exact H|].
  exact (proj2 (proj2 (proj2 (SendMessage_response_has_choice fixture.chatService
                                "hi" "" fixture.gateway fixture.completion H)))).
Defined.

Lemma CreateChatCompletion_request_witness :
  exists sent,
    trace (replying (Err (libraryError "connection refused")))
          (groq.CreateChatCompletion fixture.library fixture.groqClient
             (domain.NewChatRequest "llama-3.3-70b-versatile"
                [domain.NewChatMessage "user" "hi"]))
      = [ev (Do sent)]
    /\ Method sent = "POST"
    /\ URL sent = "https://api.groq.com/openai/v1/chat/completions"
    /\ Body sent = Some "request-json"
    /\ Header_Get (ReqHeader sent) "Content-Type" = "application/json"
    /\ Header_Get (ReqHeader sent) "Authorization" = "Bearer test-key".
Proof.
  destruct (CreateChatCompletion_request fixture.library fixture.groqClient
              (domain.NewChatRequest "llama-3.3-70b-versatile"
                 [domain.NewChatMessage "user" "hi"])
              "request-json"
              {| Method := "POST";
                 URL := "https://api.groq.com/openai/v1/chat/completions";
                 ReqHeader := []; Body := Some "request-json" |}
              (replying (Err (libraryError "connection refused")))
              eq_refl eq_refl)
    as [sent [Ht [Hme [Hu [Hb [Hct [Hau _]]]]]]].
  exists sent. repeat split; assumption.
Defined.

Lemma client_transport_failures_witness :
  exists e,
    outcome (replying (Err (libraryError "connection refused")))
            (groq.CreateChatCompletion fixture.library fixture.groqClient
               (domain.NewChatRequest "llama-3.3-70b-versatile"
                  [domain.NewChatMessage "user" "hi"])) = Some (Err e)
    /\ Error e = "error en la petición HTTP: error al ejecutar request: connection refused".
Proof.
  assert (Hnew : forall method url b,
             exists rq, groq.http_NewRequestWithContext fixture.library method url b
                        = Ok rq)
    by (intros method url b; eexists; reflexivity).
  destruct (client_transport_failures fixture.library fixture.groqClient
              (domain.NewChatRequest "llama-3.3-70b-versatile"
                 [domain.NewChatMessage "user" "hi"])
              "request-json" (libraryError "connection refused") 200 Hnew eq_refl)
    as [[e [Ho [He _]]] _].
  exists e. split; assumption.
Defined.

Lemma CreateChatCompletion_succeeds_iff_witness :
  (200 <= 200 < 300)%Z
  /\ outcome (replying (Ok {| StatusCode := 200; RespBody := Ok "reply-json" |}))
             (groq.CreateChatCompletion fixture.library fixture.groqClient
                (domain.NewChatRequest "llama-3.3-70b-versatile"
                   [domain.NewChatMessage "user" "hi"]))
     = Some (Ok fixture.completion).
Proof.
  assert (Hs : (200 <= 200 < 300)%Z) by lia.
  assert (Hnew : forall method url b,
             exists rq, groq.http_NewRequestWithContext fixture.library method url b
                        = Ok rq)
    by (intros method url b; eexists; reflexivity).
  split; [exact Hs|].
  exact (proj2 (CreateChatCompletion_succeeds_iff fixture.library fixture.groqClient
                  (domain.NewChatRequest "llama-3.3-70b-versatile"
                     [domain.NewChatMessage "user" "hi"])
                  "request-json" 200 "reply-json" fixture.completion Hnew eq_refl)
               (conj Hs eq_refl)).
Defined.

Lemma HandleChat_method_not_allowed_witness :
  Method fixture.get <> MethodPost
  /\ outcome (stubs logging fixture.failing)
             (HandleChat (fixture.decodeTo fixture.hi) NewRecorder fixture.get)
     = Some (errorReply 405 "método no permitido").
Proof.
  assert (Hm : Method fixture.get <> MethodPost) by discriminate.
  split; [exact Hm|].
  exact (proj1 (HandleChat_method_not_allowed (fixture.decodeTo fixture.hi)
                  fixture.failing fixture.get Hm)).
Defined.

Lemma HandleChat_bad_request_text_witness :
  Method fixture.post = MethodPost
  /\ outcome (stubs logging fixture.failing)
             (HandleChat (fixture.decodeTo fixture.allWrong) NewRecorder fixture.post)
     = Some (errorReply 400 "el mensaje no puede estar vacío").
Proof.
  assert (Hpost : Method fixture.post = MethodPost) by reflexivity.
  assert (Hnan : forall req t,
             fixture.decodeTo fixture.allWrong (Body fixture.post) = Ok req ->
             Temperature req = Some t -> is_nan t = false).
  { intros req t Hreq Ht. injection Hreq as <-. injection Ht as <-. reflexivity. }
  split; [exact Hpost|].
  exact (proj1 (proj2 (HandleChat_bad_request_text (fixture.decodeTo fixture.allWrong)
                         fixture.failing fixture.post Hpost Hnan)
                      fixture.allWrong eq_refl) eq_refl).
Defined.

Lemma HandleGetModels_lists_models_witness :
  Method fixture.get = MethodGet
  /\ domain.Data fixture.catalogue <> []
  /\ outcome (stubs logging fixture.listing) (HandleGetModels NewRecorder fixture.get)
     = Some {| WHeader := [("Content-Type", "application/json")];
               WCode := 200;
               WBody :=
                 [ json.Object
                     [ ("success", json.Bool true);
                       ("models",
                        json.Array
                          [ json.Object [ ("id", json.Str "llama-3.3-70b-versatile");
                                          ("name", json.Str "llama-3.3-70b-versatile");
                                          ("owned_by", json.Str "Meta") ];
                            json.Object [ ("id", json.Str "mixtral-8x7b-32768");
                                          ("name", json.Str "mixtral-8x7b-32768");
                                          ("owned_by", json.Str "Mistral AI") ] ]) ] ] |}.
Proof.
  assert (Hget : Method fixture.get = MethodGet) by reflexivity.
  assert (Hne : domain.Data fixture.catalogue <> []) by discriminate.
  split; [exact Hget|]. split; [exact Hne|].
  exact (HandleGetModels_lists_models fixture.listing fixture.get fixture.catalogue
           Hget eq_refl Hne).
Defined.

Lemma HandleGetModels_empty_list_witness :
  Method fixture.get = MethodGet
  /\ outcome (stubs logging fixture.emptyListing) (HandleGetModels NewRecorder fixture.get)
     = Some {| WHeader := [("Content-Type", "application/json")];
               WCode := 200;
               WBody := [ json.Object [ ("success", json.Bool true) ] ] |}.
Proof.
  assert (Hget : Method fixture.get = MethodGet) by reflexivity.
  split; [exact Hget|].
  exact (HandleGetModels_empty_list fixture.emptyListing fixture.get
           {| domain.ModelsResponse_Object := "list"; domain.Data := [] |}
           Hget eq_refl eq_refl).
Defined.

Lemma upstream_rejection_is_logged_witness :
  Validate fixture.hi = None
  /\ (429 < 200 \/ 300 <= 429)%Z
  /\ logLines (trace (stubs logging
                        (replying (Ok {| StatusCode := 429;
                                         RespBody := Ok "rate limit exceeded" |})))
                     (main.chatEndpoint (fixture.decodeTo fixture.hi) fixture.library
                        fixture.chatService fixture.groqClient NewRecorder fixture.post))
     = [ "[POST] /api/v1/chat - HandleChat";
         "Error en servicio: error al obtener respuesta de Groq: "
           ++ "error en la petición HTTP: API retornó status 429: rate limit exceeded" ].
Proof.
  assert (Hv : Validate fixture.hi = None) by reflexivity.
  assert (Hs : (429 < 200 \/ 300 <= 429)%Z) by (right; lia).
  assert (Hc : chosenModel fixture.chatService (Model fixture.hi) <> "") by discriminate.
  assert (Hnew : forall method url b,
             exists rq, groq.http_NewRequestWithContext fixture.library method url b
                        = Ok rq)
    by (intros method url b; eexists; reflexivity).
  split; [exact Hv|]. split; [exact Hs|].
  exact (upstream_rejection_is_logged (fixture.decodeTo fixture.hi) fixture.library
           fixture.chatService fixture.groqClient fixture.post fixture.hi
           "request-json" 429 "rate limit exceeded"
           eq_refl eq_refl Hv Hc Hnew eq_refl Hs).
Defined.

Lemma empty_completion_is_a_failure_witness :
  Validate fixture.hi = None
  /\ (200 <= 200 < 300)%Z
  /\ outcome (stubs logging (replying (Ok {| StatusCode := 200;
                                             RespBody := Ok "reply-json" |})))
             (main.chatEndpoint (fixture.decodeTo fixture.hi) fixture.hollowLibrary
                fixture.chatService fixture.groqClient NewRecorder fixture.post)
     = Some genericFailure.
Proof.
  assert (Hv : Validate fixture.hi = None) by reflexivity.
  assert (Hs : (200 <= 200 < 300)%Z) by lia.
  assert (Hc : chosenModel fixture.chatService (Model fixture.hi) <> "") by discriminate.
  assert (Hnew : forall method url b,
             exists rq, groq.http_NewRequestWithContext fixture.hollowLibrary method url b
                        = Ok rq)
    by (intros method url b; eexists; reflexivity).
  split; [exact Hv|]. split; [exact Hs|].
  exact (empty_completion_is_a_failure (fixture.decodeTo fixture.hi) fixture.hollowLibrary
           fixture.chatService fixture.groqClient fixture.post fixture.hi
           "request-json" 200 "reply-json" _
           eq_refl eq_refl Hv Hc Hnew eq_refl Hs eq_refl eq_refl).
Defined.

Lemma modelsEndpoint_replies_witness :
  Method fixture.get = MethodGet
  /\ outcome (stubs logging (replying (Ok {| StatusCode := 200;
                                             RespBody := Ok "models-json" |})))
             (main.modelsEndpoint fixture.catalogueLibrary fixture.chatService
                fixture.groqClient NewRecorder fixture.get)
     = Some {| WHeader := [("Content-Type", "application/json")];
               WCode := 200;
               WBody := [ json.Object
                            [ ("success", json.Bool true);
                              ("models", json.Array (map modelDocument
                                                         (domain.Data fixture.catalogue))) ] ] |}.
Proof.
  assert (Hget : Method fixture.get = MethodGet) by reflexivity.
  assert (Hnew : forall method url b,
             exists rq, groq.http_NewRequestWithContext fixture.catalogueLibrary
                          method url b = Ok rq)
    by (intros method url b; eexists; reflexivity).
  assert (Hs : (200 <= 200 < 300)%Z) by lia.
  assert (Hne : domain.Data fixture.catalogue <> []) by discriminate.
  split; [exact Hget|].
  exact (proj1 (modelsEndpoint_replies fixture.catalogueLibrary fixture.chatService
                  fixture.groqClient fixture.get 200 "models-json" Hget Hnew)
               fixture.catalogue Hs eq_refl Hne).
Defined.

Lemma dependencies_after_Load_witness :
  outcome fixture.os (config.Load fixture.atoi) = Some (Ok fixture.loaded)
  /\ @main.dependencies httpInfra.Logger fixture.loaded
     = Ret ({| groq.baseURL := "https://api.groq.com/openai/v1";
               groq.apiKey := "gsk_live_0123456789abcdef" |},
            {| application.defaultModel := "llama-3.3-70b-versatile" |}).
Proof.
  assert (H : outcome fixture.os (config.Load fixture.atoi) = Some (Ok fixture.loaded))
    by (vm_compute; reflexivity).
  split; [exact H|].
  exact (proj1 (dependencies_after_Load fixture.atoi fixture.os fixture.loaded
                  httpInfra.Logger H)).
Defined.

Lemma further_choices_are_ignored_witness :
  Validate fixture.hi = None
  /\ (200 <= 200 < 300)%Z
  /\ exists w doc,
       outcome (stubs logging (replying (Ok {| StatusCode := 200;
                                               RespBody := Ok "reply-json" |})))
               (main.chatEndpoint (fixture.decodeTo fixture.hi) fixture.twofoldLibrary
                  fixture.chatService fixture.groqClient NewRecorder fixture.post)
         = Some w
       /\ WBody w = [doc]
       /\ member "message" doc = Some (json.Str "hello").
Proof.
  assert (Hv : Validate fixture.hi = None) by reflexivity.
  assert (Hs : (200 <= 200 < 300)%Z) by lia.
  assert (Hc : chosenModel fixture.chatService (Model fixture.hi) <> "") by discriminate.
  assert (Hnew : forall method url b,
             exists rq, groq.http_NewRequestWithContext fixture.twofoldLibrary method url b
                        = Ok rq)
    by (intros method url b; eexists; reflexivity).
  split; [exact Hv|]. split; [exact Hs|].
  eexists. eexists. split.
  - exact (further_choices_are_ignored (fixture.decodeTo fixture.hi) fixture.twofoldLibrary
             fixture.chatService fixture.groqClient fixture.post fixture.hi
             "request-json" 200 "reply-json" fixture.twofold _ _
             eq_refl eq_refl Hv Hc Hnew eq_refl Hs eq_refl eq_refl).
  - split; reflexivity.
Defined.

End MoreWitnesses.
